(** * tangerine.client: the authenticated request pipeline

    A shallow embedding of [tangerine/client.py]: the [api_response]
    decorator, the GET/POST primitives of [TangerineClient], the [login]
    context manager and the operations built on them, with the properties
    of the specification proved about them.

    Python values travel as [json]; text is a [string] of UTF-8 bytes; the
    calls the client makes on its collaborators ([requests.Session], the
    file system, [print], [logging], [TangerineLoginFlow]) are answered by
    a [Platform] and recorded, in order, in the [trace] of the [world]. *)

From Stdlib Require Import List String Ascii ZArith Bool Lia DecimalString.
Import ListNotations.
Local Open Scope string_scope.
Local Open Scope Z_scope.
Set Warnings "-register-all".

(** ** Python values *)

(** What [json.loads] produces and what the callers pass in.  A [float] is
    carried by its [repr] text; a [dict] keeps its items in insertion
    order. *)
Inductive json : Type :=
| JNone
| JBool (b : bool)
| JInt (n : Z)
| JFloat (repr : string)
| JStr (s : string)
| JList (items : list json)
| JDict (items : list (string * json)).

(** The exceptions that reach the caller. *)
Inductive exn : Type :=
| APIResponseError (response : json)
| UnsupportedAccountTypeForDownload (account_type : json)
| KeyError (key : string)
| TypeError
| HTTPError (status_code : Z)
| CookieConflictError
| PyException (name : string)       (* any other subclass of Exception *)
| PyBaseException (name : string).  (* KeyboardInterrupt, SystemExit, ... *)

Inductive result (A : Type) : Type :=
| Ok (a : A)
| Raise (e : exn).
Arguments Ok {A} a.
Arguments Raise {A} e.


(** [d.get(key)] on the items of a dict. *)
Fixpoint dict_get (key : string) (items : list (string * json)) : option json :=
  match items with
  | [] => None
  | (k, v) :: rest => if String.eqb k key then Some v else dict_get key rest
  end.

(** [obj[key]] for a string [key]: only a dict can be subscripted by one. *)
Definition getitem (obj : json) (key : string) : result json :=
  match obj with
  | JDict items =>
      match dict_get key items with
      | Some v => Ok v
      | None => Raise (KeyError key)
      end
  | _ => Raise TypeError
  end.

(** [obj == s] for a string literal [s]. *)
Definition eq_str (obj : json) (s : string) : bool :=
  match obj with
  | JStr t => String.eqb t s
  | _ => false
  end.

(** ** Text *)

(** [sep.join(parts)]. *)
Fixpoint join (sep : string) (parts : list string) : string :=
  match parts with
  | [] => ""
  | [p] => p
  | p :: rest => p ++ sep ++ join sep rest
  end.

(** [str(n)] for an int. *)
Definition str_int (n : Z) : string := NilZero.string_of_int (Z.to_int n).

(** [s.zfill(width)] for a string of digits. *)
Definition zfill (width : nat) (s : string) : string :=
  string_of_list_ascii (repeat "0"%char (width - String.length s)) ++ s.

(** ** urllib.parse *)

Definition in_range (lo hi c : ascii) : bool :=
  (nat_of_ascii lo <=? nat_of_ascii c)%nat && (nat_of_ascii c <=? nat_of_ascii hi)%nat.

Fixpoint mem_ascii (c : ascii) (s : string) : bool :=
  match s with
  | EmptyString => false
  | String d rest => Ascii.eqb c d || mem_ascii c rest
  end.

(** [_ALWAYS_SAFE]: letters, digits and [_.-~]. *)
Definition always_safe (c : ascii) : bool :=
  in_range "A" "Z" c || in_range "a" "z" c || in_range "0" "9" c || mem_ascii c "_.-~".

Definition hex_digit (n : nat) : ascii :=
  match get n "0123456789ABCDEF" with
  | Some c => c
  | None => "0"%char
  end.

(** ["%{:02X}".format(byte)]. *)
Definition percent (c : ascii) : string :=
  let n := nat_of_ascii c in
  String "%" (String (hex_digit (n / 16)) (String (hex_digit (n mod 16)) "")).

(** [quote(s, safe)]: every byte that is neither always safe nor in [safe]
    is percent-encoded. *)
Fixpoint quote (safe : string) (s : string) : string :=
  match s with
  | EmptyString => ""
  | String c rest =>
      (if always_safe c || mem_ascii c safe then String c "" else percent c)
        ++ quote safe rest
  end.

(** [s.replace(' ', '+')]. *)
Fixpoint spaces_to_plus (s : string) : string :=
  match s with
  | EmptyString => ""
  | String c rest => String (if Ascii.eqb c " " then "+"%char else c) (spaces_to_plus rest)
  end.

(** [quote_plus(s, safe)]. *)
Definition quote_plus (safe : string) (s : string) : string :=
  if mem_ascii " " s then spaces_to_plus (quote (safe ++ " ") s) else quote safe s.

(** [s.split(sep)] for a separator of one character. *)
Fixpoint split_on (sep : ascii) (s : string) : list string :=
  match s with
  | EmptyString => [EmptyString]
  | String c rest =>
      if Ascii.eqb c sep then EmptyString :: split_on sep rest
      else match split_on sep rest with
           | piece :: pieces => String c piece :: pieces
           | [] => [String c EmptyString]
           end
  end.

(** [s.split(sep, 1)] when [sep] is in [s]: what stands before the first
    [sep] and what follows it. *)
Fixpoint split_once (sep : ascii) (s : string) : option (string * string) :=
  match s with
  | EmptyString => None
  | String c rest =>
      if Ascii.eqb c sep then Some (EmptyString, rest)
      else match split_once sep rest with
           | Some (before, after) => Some (String c before, after)
           | None => None
           end
  end.

(** [s.replace('+', ' ')]. *)
Fixpoint plus_to_spaces (s : string) : string :=
  match s with
  | EmptyString => ""
  | String c rest => String (if Ascii.eqb c "+" then " "%char else c) (plus_to_spaces rest)
  end.

(** The value of a hexadecimal digit, of either case. *)
Definition hex_value (c : ascii) : option nat :=
  let n := nat_of_ascii c in
  if in_range "0" "9" c then Some (n - 48)%nat
  else if in_range "A" "F" c then Some (n - 55)%nat
  else if in_range "a" "f" c then Some (n - 87)%nat
  else None.

(** [unquote(s)]: every [%] followed by two hexadecimal digits is the
    byte they spell; any other [%] stays (the bytes that come out are
    taken to be UTF-8). *)
Fixpoint unquote (s : string) : string :=
  match s with
  | EmptyString => ""
  | String c tail =>
      if Ascii.eqb c "%" then
        match tail with
        | String h (String l rest) =>
            match hex_value h, hex_value l with
            | Some a, Some b => String (ascii_of_nat (16 * a + b)) (unquote rest)
            | _, _ => String c (unquote tail)
            end
        | _ => String c (unquote tail)
        end
      else String c (unquote tail)
  end.

(** [parse_qsl(qs)] with its defaults: the fields between [&], each split
    at its first [=]; a field with no [=] or with nothing after it is
    dropped; name and value are unquoted, [+] read as a space. *)
Definition parse_qsl (qs : string) : list (string * string) :=
  match qs with
  | EmptyString => []
  | _ =>
      flat_map
        (fun name_value =>
           match split_once "=" name_value with
           | Some (name, String c value) =>
               [ (unquote (plus_to_spaces name), unquote (plus_to_spaces (String c value))) ]
           | _ => []
           end)
        (split_on "&" qs)
  end.

(** ** datetime.date *)

Record date : Type := { year : Z; month : Z; day : Z }.

(** [d.strftime(fmt)] for the directives the client uses, as the C
    library prints them: [%Y] is the year in decimal, with no padding (a
    year below 1000 has fewer than four digits), [%m] and [%d] are two
    digits; every other character is copied. *)
Fixpoint strftime (d : date) (fmt : string) : string :=
  match fmt with
  | String "%" (String "Y" rest) => str_int (year d) ++ strftime d rest
  | String "%" (String "m" rest) => zfill 2 (str_int (month d)) ++ strftime d rest
  | String "%" (String "d" rest) => zfill 2 (str_int (day d)) ++ strftime d rest
  | String c rest => String c (strftime d rest)
  | EmptyString => ""
  end.

(** ** The collaborators *)

(** What [requests] hands back: the status, the body as text, and what
    [.json()] makes of the body. *)
Record Response : Type := {
  status_code : Z;
  text : string;
  json_body : result json
}.

(** A call on [requests.Session], with the arguments the client passes. *)
Inductive request : Type :=
| Get (url : string) (headers : list (string * json))
| Post (url : string) (headers : list (string * json)) (body : json).

(** The cookies of the session: name and value, one entry per cookie (two
    domains or paths may hold the same name). *)
Definition cookiejar : Type := list (string * string).

(** The calls that leave the client, in the order they are made. *)
Inductive event : Type :=
| EvRequest (rq : request)
| EvJson (r : Response)
| EvFileWrite (name content : string)
| EvLog (level message : string)
| EvPrint (v : json)
| EvLoginStart
| EvLoginEnd.

(** Everything the client does not define itself: the bank's servers and
    the disk ([outside]), the transport of [requests.Session], [open] and
    [write], [TangerineLoginFlow.start] and [.end] ([tangerine/login.py]),
    and the interpreter's [repr] of a [str]. *)
Class Platform : Type := {
  outside : Type;
  repr_str : string -> string;
  send : request -> cookiejar -> outside -> result Response * cookiejar * outside;
  write_file : string -> string -> outside -> result unit * outside;
  flow_start : cookiejar -> outside -> result unit * cookiejar * outside;
  flow_end : cookiejar -> outside -> result unit * cookiejar * outside
}.

Record world `{Platform} : Type := {
  cookies : cookiejar;
  ext : outside;
  trace : list event
}.

Section Client.
Context {P : Platform}.

(** [repr(v)] and [str(v)]. *)
Fixpoint py_repr (v : json) : string :=
  match v with
  | JNone => "None"
  | JBool true => "True"
  | JBool false => "False"
  | JInt n => str_int n
  | JFloat r => r
  | JStr s => repr_str s
  | JList items => "[" ++ join ", " (map py_repr items) ++ "]"
  | JDict items =>
      "{" ++ join ", " (map (fun kv => repr_str (fst kv) ++ ": " ++ py_repr (snd kv)) items) ++ "}"
  end.

Definition py_str (v : json) : string :=
  match v with
  | JStr s => s
  | _ => py_repr v
  end.

(** [urlencode(params)] for a dict: [quote_plus] of every key and of the
    [str] of every value. *)
Definition urlencode (params : list (string * json)) : string :=
  join "&" (map (fun kv => quote_plus "" (fst kv) ++ "=" ++ quote_plus "" (py_str (snd kv))) params).

(** ** Computations: state and exceptions *)

Definition M (A : Type) : Type := world -> result A * world.

Definition ret {A} (a : A) : M A := fun w => (Ok a, w).

Definition raise {A} (e : exn) : M A := fun w => (Raise e, w).

Definition bind {A B} (m : M A) (k : A -> M B) : M B :=
  fun w =>
    match m w with
    | (Ok a, w1) => k a w1
    | (Raise e, w1) => (Raise e, w1)
    end.

Definition lift {A} (r : result A) : M A := fun w => (r, w).



Definition emit (ev : event) : M unit :=
  fun w => (Ok tt, {| cookies := cookies w; ext := ext w; trace := trace w ++ [ev] |}).

End Client.

Notation "x <- m ;; k" := (bind m (fun x => k))
  (at level 61, m at next level, right associativity).
Notation "m ;; k" := (bind m (fun _ => k))
  (at level 61, right associativity).

Section Session.
Context {P : Platform}.

(** [session.get(url, headers=...)] and [session.post(url, headers=..., json=...)]. *)
Definition session_call (rq : request) : M Response :=
  emit (EvRequest rq) ;;
  fun w =>
    match send rq (cookies w) (ext w) with
    | (r, jar, o) => (r, {| cookies := jar; ext := o; trace := trace w |})
    end.

Definition session_get (url : string) (headers : list (string * json)) : M Response :=
  session_call (Get url headers).

Definition session_post (url : string) (headers : list (string * json)) (data : json) : M Response :=
  session_call (Post url headers data).

(** [RequestsCookieJar._find_no_duplicates(name)]: the loop over the jar. *)
Fixpoint _find_no_duplicates (name : string) (jar : cookiejar) (toReturn : option string)
  : result (option string) :=
  match jar with
  | [] => Ok toReturn
  | (n, v) :: rest =>
      if String.eqb n name then
        match toReturn with
        | Some _ => Raise CookieConflictError
        | None => _find_no_duplicates name rest (Some v)
        end
      else _find_no_duplicates name rest toReturn
  end.

(** [session.cookies.get(name)]: the value of the one cookie of that name,
    [None] when there is none or its value is empty. *)
Definition cookies_get (name : string) : M json :=
  fun w =>
    match _find_no_duplicates name (cookies w) None with
    | Raise e => (Raise e, w)
    | Ok (Some (String c v)) => (Ok (JStr (String c v)), w)
    | Ok _ => (Ok JNone, w)
    end.

(** [response.raise_for_status()]: an [HTTPError] for a 4xx or 5xx status. *)
Definition is_http_error (r : Response) : bool :=
  (400 <=? status_code r) && (status_code r <? 600).

Definition raise_for_status (r : Response) : M unit :=
  if is_http_error r then raise (HTTPError (status_code r)) else ret tt.

(** [response.json()]. *)
Definition Response_json (r : Response) : M json :=
  emit (EvJson r) ;; lift (json_body r).

Definition logger_debug (message : string) : M unit := emit (EvLog "DEBUG" message).
Definition logger_info (message : string) : M unit := emit (EvLog "INFO" message).
Definition print (v : json) : M unit := emit (EvPrint v).

(** [with open(name, 'w') as f: f.write(content)]. *)
Definition open_write (name content : string) : M unit :=
  emit (EvFileWrite name content) ;;
  fun w =>
    match write_file name content (ext w) with
    | (r, o) => (r, {| cookies := cookies w; ext := o; trace := trace w |})
    end.

Definition login_flow_call
  (ev : event) (op : cookiejar -> outside -> result unit * cookiejar * outside) : M unit :=
  emit ev ;;
  fun w =>
    match op (cookies w) (ext w) with
    | (r, jar, o) => (r, {| cookies := jar; ext := o; trace := trace w |})
    end.

Definition login_flow_start : M unit := login_flow_call EvLoginStart flow_start.
Definition login_flow_end : M unit := login_flow_call EvLoginEnd flow_end.

End Session.

(** ** tangerine.client *)

Section TangerineClient.
Context {P : Platform}.

(** [api_response(root_key, check_response_status)(fn)]: the wrapper. *)
Definition api_response (root_key : string) (check_response_status : bool) (fn : M json) : M json :=
  response_json <- fn ;;
  failed <- (if check_response_status then
               response_status <- lift (getitem response_json "response_status") ;;
               code <- lift (getitem response_status "status_code") ;;
               ret (negb (eq_str code "SUCCESS"))
             else ret false) ;;
  if failed then raise (APIResponseError response_json)
  else if String.eqb root_key "" then ret response_json
  else lift (getitem response_json root_key).

Definition rest_url (path : string) : string :=
  "https://secure.tangerine.ca/web/rest" ++ path.

Definition _api_get (path : string) : M json :=
  let url := rest_url path in
  response <- session_get url [] ;;
  raise_for_status response ;;
  Response_json response.

(** The headers of a POST, lines 50 to 57. *)
Definition post_headers (transaction_token : json) : list (string * json) :=
  [ ("x-web-flavour", JStr "fbe");
    ("Accept", JStr "application/json");
    ("Origin", JStr "https://www.tangerine.ca");
    ("Referrer", JStr "https://www.tangerine.ca/app/");
    ("User-Agent",
     JStr "Mozilla/5.0 (X11; Ubuntu; Linux x86_64; rv:57.0) Gecko/20100101 Firefox/57.0");
    ("x-transaction-token", transaction_token) ].

Definition _api_post (path : string) (data : json) : M Response :=
  transaction_token <- cookies_get "TRANSACTION_TOKEN" ;;
  resp <- session_post (rest_url path) (post_headers transaction_token) data ;;
  raise_for_status resp ;;
  logger_debug (text resp) ;;
  ret resp.


Definition me : M json :=
  api_response "customer" true (_api_get "/v1/customers/my").

Definition list_accounts : M json :=
  api_response "accounts" true (_api_get "/pfm/v1/accounts").

Definition get_account (account_id : json) : M json :=
  api_response "account_summary" true
    (_api_get ("/v1/accounts/" ++ py_str account_id ++ "?billing-cycle-ranges=true")).

(** [','.join(account_ids)]: every item has to be a [str]. *)
Fixpoint str_items (items : list json) : result (list string) :=
  match items with
  | [] => Ok []
  | JStr s :: rest =>
      match str_items rest with
      | Ok l => Ok (s :: l)
      | Raise e => Raise e
      end
  | _ :: _ => Raise TypeError
  end.

Definition join_items (sep : string) (items : list json) : result string :=
  match str_items items with
  | Ok l => Ok (join sep l)
  | Raise e => Raise e
  end.

Definition list_transactions_fn (account_ids : list json) (period_from period_to : date) : M json :=
  ids <- lift (join_items "," account_ids) ;;
  let params :=
    [ ("accountIdentifiers", JStr ids);
      ("hideAuthorizedStatus", JBool true);
      ("periodFrom", JStr (strftime period_from "%Y-%m-%dT00:00:00.000Z"));
      ("periodTo", JStr (strftime period_to "%Y-%m-%dT00:00:00.000Z"));
      ("skip", JInt 0) ] in
  _api_get ("/pfm/v1/transactions?" ++ urlencode params).

Definition list_transactions (account_ids : list json) (period_from period_to : date) : M json :=
  api_response "transactions" true (list_transactions_fn account_ids period_from period_to).

Definition list_pending_transactions : M json :=
  api_response "pending_transactions" true
    (let params := [ ("include-mf-transactions", JStr "true") ] in
     _api_get ("/v1/customers/my/pending-transactions?" ++ urlencode params)).

Definition list_email_recipients : M json :=
  api_response "recipient" true (_api_get "/v1/customers/my/emt-recipients").

Definition list_move_money_accounts : M json :=
  api_response "" true
    (let params := [ ("actionCode", JStr "MOVE_MONEY") ] in
     _api_get ("/v1/customers/my/accounts?" ++ urlencode params)).

Definition _get_transaction_download_token : M json :=
  api_response "token" false
    (_api_get "/v1/customers/my/security/transaction-download-token").

(** [download_ofx], lines 128 to 142: the account type code and the two
    names the download is made under. *)
Definition download_ofx_names (account : json) : M (string * json * json) :=
  type1 <- lift (getitem account "type") ;;
  if eq_str type1 "CHEQUING" then
    account_display_name <- lift (getitem account "display_name") ;;
    account_nickname <- lift (getitem account "nickname") ;;
    ret ("SAVINGS", account_display_name, account_nickname)
  else
    type2 <- lift (getitem account "type") ;;
    if eq_str type2 "SAVINGS" then
      account_display_name <- lift (getitem account "display_name") ;;
      account_nickname <- lift (getitem account "nickname") ;;
      ret ("SAVINGS", account_display_name, account_nickname)
    else
      type3 <- lift (getitem account "type") ;;
      if eq_str type3 "CREDIT_CARD" then
        number <- lift (getitem account "number") ;;
        account_details <- get_account number ;;
        account_display_name <- lift (getitem account_details "display_name") ;;
        account_nickname <- lift (getitem account_details "account_nick_name") ;;
        ret ("CREDITLINE", account_display_name, account_nickname)
      else
        type4 <- lift (getitem account "type") ;;
        raise (UnsupportedAccountTypeForDownload type4).

(** The query of the download, lines 146 to 162. *)
Definition ofx_params
  (account_type : string) (account_display_name account_nickname token : json)
  (start_date end_date : date) : list (string * json) :=
  [ ("fileType", JStr "QFX");
    ("ofxVersion", JStr "102");
    ("sessionId", JStr "tng");
    ("orgName", JStr "Tangerine");
    ("bankId", JStr "0614");
    ("language", JStr "eng");
    ("acctType", JStr account_type);
    ("acctNum", account_display_name);
    ("acctName", account_nickname);
    ("userDefined", token);
    ("startDate", JStr (strftime start_date "%Y%m%d"));
    ("endDate", JStr (strftime end_date "%Y%m%d"));
    ("orgId", JInt 10951);
    ("custom.tag", JStr "customValue");
    ("csvheader", JStr "Date,Transaction,Name,Memo,Amount") ].

Definition ofx_request
  (account_type : string) (account_display_name account_nickname token : json)
  (start_date end_date : date) : request :=
  let filename := py_str account_nickname ++ ".QFX" in
  let params :=
    ofx_params account_type account_display_name account_nickname token start_date end_date in
  Get ("https://ofx.tangerine.ca/" ++ quote "/" filename ++ "?" ++ urlencode params)
      [ ("Referer", JStr "https://www.tangerine.ca/app/") ].

(** ['{}_{}-{}.QFX'.format(nickname, start, end)], lines 167 to 169. *)
Definition local_filename (account_nickname : json) (start_date end_date : date) : string :=
  py_str account_nickname ++ "_" ++ strftime start_date "%Y%m%d" ++ "-"
    ++ strftime end_date "%Y%m%d" ++ ".QFX".

(** [download_ofx], lines 144 to 176. *)
Definition download_ofx_fetch
  (account_type : string) (account_display_name account_nickname : json)
  (start_date end_date : date) (save : bool) : M json :=
  token <- _get_transaction_download_token ;;
  response <- session_call
                (ofx_request account_type account_display_name account_nickname token
                   start_date end_date) ;;
  raise_for_status response ;;
  if save then
    let name := local_filename account_nickname start_date end_date in
    open_write name (text response) ;;
    logger_info ("Saved: " ++ name) ;;
    ret (JStr name)
  else ret (JStr (text response)).

Definition download_ofx (account : json) (start_date end_date : date) (save : bool) : M json :=
  names <- download_ofx_names account ;;
  match names with
  | (account_type, account_display_name, account_nickname) =>
      download_ofx_fetch account_type account_display_name account_nickname
        start_date end_date save
  end.

(** The body of [move_money], before the decorator. *)
Definition move_money_fn (account_id from_account to_account amount currency when : json) : M json :=
  let path := "/v1/accounts/" ++ py_str account_id ++ "/transactions/movemoney" in
  let data :=
    JDict [ ("transfers",
             JDict [ ("when", when);
                     ("amount", amount);
                     ("to_account", to_account);
                     ("from_account", from_account);
                     ("currency", currency) ]);
            ("validate_only", JBool false) ] in
  print data ;;
  response <- _api_post path data ;;
  decoded <- Response_json response ;;
  print decoded ;;
  ret JNone.

Definition move_money (account_id from_account to_account amount currency when : json) : M json :=
  api_response "" true (move_money_fn account_id from_account to_account amount currency when).

(** The JSON body of [email_money], lines 205 to 216. *)
Definition email_money_data
  (recipient_sequence_number amount when : json) (scheduled_date : date) (emt_type : json) : json :=
  JDict [ ("validate_only", JBool false);
          ("emt",
           JDict [ ("emt_type", emt_type);
                   ("amount", amount);
                   ("recipient_sequence_number", recipient_sequence_number);
                   ("message", JStr "");
                   ("accepted_terms_and_conditions", JBool true);
                   ("when", when);
                   ("scheduled_date", JStr (strftime scheduled_date "%Y-%m-%d")) ]) ].

(** The body of [email_money], before the decorator. *)
Definition email_money_fn
  (source_account_number recipient_sequence_number amount when : json)
  (scheduled_date : date) (emt_type : json) : M json :=
  let path := "/v1/accounts/" ++ py_str source_account_number ++ "/transactions/emts" in
  let data := email_money_data recipient_sequence_number amount when scheduled_date emt_type in
  response <- _api_post path data ;;
  decoded <- Response_json response ;;
  print decoded ;;
  ret JNone.

Definition email_money
  (source_account_number recipient_sequence_number amount when : json)
  (scheduled_date : date) (emt_type : json) : M json :=
  api_response "" true
    (email_money_fn source_account_number recipient_sequence_number amount when
       scheduled_date emt_type).

End TangerineClient.

(** ** A bank to run the client against *)

(** [repr] of a [str] that holds no quote, backslash or control character. *)
Definition plain_repr (s : string) : string := "'" ++ s ++ "'".

Definition success_status : string * json :=
  ("response_status", JDict [ ("status_code", JStr "SUCCESS") ]).

Definition json_response (status : Z) (body : json) : Response :=
  {| status_code := status; text := "(json)"; json_body := Ok body |}.

Definition text_response (status : Z) (body : string) : Response :=
  {| status_code := status; text := body; json_body := Raise (PyException "JSONDecodeError") |}.

Definition url_of (rq : request) : string :=
  match rq with
  | Get url _ => url
  | Post url _ _ => url
  end.

(** The answers of a bank in good order. *)
Definition bank (rq : request) : result Response :=
  let url := url_of rq in
  if String.prefix "https://ofx.tangerine.ca/" url then
    Ok (text_response 200 "OFXHEADER:100")
  else if String.prefix "https://secure.tangerine.ca/web/rest/v1/accounts/" url then
    match rq with
    | Get _ _ =>
        Ok (json_response 200
              (JDict [ success_status;
                       ("account_summary",
                        JDict [ ("display_name", JStr "5360 1234");
                                ("account_nick_name", JStr "Card") ]) ]))
    | Post _ _ _ => Ok (json_response 200 (JDict [ success_status ]))
    end
  else if String.eqb url
            "https://secure.tangerine.ca/web/rest/v1/customers/my/security/transaction-download-token"
  then Ok (json_response 200 (JDict [ ("token", JStr "d0wn") ]))
  else if String.prefix "https://secure.tangerine.ca/web/rest/pfm/v1/transactions?" url then
    Ok (json_response 200 (JDict [ success_status; ("transactions", JList []) ]))
  else if String.eqb url "https://secure.tangerine.ca/web/rest/v1/customers/my" then
    Ok (json_response 200 (JDict [ success_status; ("customer", JDict [ ("title", JStr "MS") ]) ]))
  else
    Ok (json_response 404
          (JDict [ ("response_status", JDict [ ("status_code", JStr "NOT_FOUND") ]) ])).

(** A platform whose servers answer by [answer], whose disk keeps every
    file written ([outside] is the list of files), whose login sets the
    token cookie and whose logout ends as [logout] says. *)
Definition scripted (answer : request -> result Response) (logout : result unit) : Platform :=
  {| outside := list (string * string);
     repr_str := plain_repr;
     send := fun rq jar files => (answer rq, jar, files);
     write_file := fun name content files => (Ok tt, (name, content) :: files);
     flow_start := fun jar files => (Ok tt, ("TRANSACTION_TOKEN", "t0k3n") :: jar, files);
     flow_end := fun jar files => (logout, [], files) |}.

Definition fresh {P : Platform} (files : outside) : world :=
  {| cookies := []; ext := files; trace := [] |}.

Definition logged_in {P : Platform} (files : outside) : world :=
  {| cookies := [ ("TRANSACTION_TOKEN", "t0k3n") ]; ext := files; trace := [] |}.

(** The requests among the events of a trace. *)
Fixpoint requests (events : list event) : list request :=
  match events with
  | [] => []
  | EvRequest rq :: rest => rq :: requests rest
  | _ :: rest => requests rest
  end.

(** The events a computation adds to the trace of [w]. *)
Definition events_of {P : Platform} {A} (m : M A) (w : world) : list event :=
  skipn (List.length (trace w)) (trace (snd (m w))).

(** [m] only adds events to the trace, and only events that [allowed] admits. *)
Definition emits {P : Platform} {A} (allowed : event -> bool) (m : M A) : Prop :=
  forall w, exists d, trace (snd (m w)) = (trace w ++ d)%list /\ forallb allowed d = true.

Definition jan_1 : date := {| year := 2023; month := 1; day := 1 |}.
Definition jan_31 : date := {| year := 2023; month := 1; day := 31 |}.

(** The bank in good order, with a logout that succeeds. *)
Definition good_bank : Platform := scripted bank (Ok tt).

(** A bank that answers every call with 304 Not Modified and no body. *)
Definition unchanged_bank : Platform :=
  scripted (fun _ => Ok (text_response 304 "")) (Ok tt).


(** The files written and the bodies decoded among the events of a trace. *)
Fixpoint file_writes (events : list event) : list (string * string) :=
  match events with
  | [] => []
  | EvFileWrite name content :: rest => (name, content) :: file_writes rest
  | _ :: rest => file_writes rest
  end.

Fixpoint decodes (events : list event) : list Response :=
  match events with
  | [] => []
  | EvJson r :: rest => r :: decodes rest
  | _ :: rest => decodes rest
  end.

(** The query of a URL: what follows the first [?]. *)
Fixpoint query_string (url : string) : string :=
  match url with
  | EmptyString => ""
  | String "?" rest => rest
  | String _ rest => query_string rest
  end.

(** The two GETs [download_ofx] makes on the REST host. *)
Definition token_request : request :=
  Get (rest_url "/v1/customers/my/security/transaction-download-token") [].

Definition account_request {P : Platform} (number : json) : request :=
  Get (rest_url ("/v1/accounts/" ++ py_str number ++ "?billing-cycle-ranges=true")) [].

Definition no_request (ev : event) : bool :=
  match ev with
  | EvRequest _ => false
  | _ => true
  end.

Definition no_file_write (ev : event) : bool :=
  match ev with
  | EvFileWrite _ _ => false
  | _ => true
  end.

Definition no_decode (ev : event) : bool :=
  match ev with
  | EvJson _ => false
  | _ => true
  end.

Definition any_event (ev : event) : bool := true.



(** A transfer to make, as [move_money] takes it. *)
Definition a_transfer {P : Platform} : M json :=
  move_money (JStr "3141") (JStr "3141") (JStr "2718") (JFloat "25.0") (JStr "CAD") (JStr "NOW").

Definition a_chequing_account : json :=
  JDict [ ("number", JStr "3141"); ("type", JStr "CHEQUING");
          ("display_name", JStr "3141"); ("nickname", JStr "Daily") ].

Definition a_credit_card : json :=
  JDict [ ("number", JStr "X"); ("type", JStr "CREDIT_CARD") ].

Definition a_loan : json :=
  JDict [ ("number", JStr "7"); ("type", JStr "MORTGAGE");
          ("display_name", JStr "7"); ("nickname", JStr "Home") ].

(** How many times the character [c] stands in [s]. *)
Fixpoint count_char (c : ascii) (s : string) : nat :=
  match s with
  | EmptyString => 0%nat
  | String d rest => ((if Ascii.eqb c d then 1 else 0) + count_char c rest)%nat
  end.

(** [isinstance(v, str)]. *)
Definition is_str (v : json) : bool :=
  match v with
  | JStr _ => true
  | _ => false
  end.

(** The events of a read: a GET, the decoding of its answer, nothing else. *)
Definition read_event (ev : event) : bool :=
  match ev with
  | EvRequest (Get _ _) => true
  | EvJson _ => true
  | _ => false
  end.

(** [YYYY-MM-DD], the digits of a date. *)
Definition iso_date (d : date) : string :=
  zfill 4 (str_int (year d)) ++ "-" ++ zfill 2 (str_int (month d)) ++ "-"
    ++ zfill 2 (str_int (day d)).

Definition calendar_date (d : date) : Prop :=
  1000 <= year d <= 9999 /\ 1 <= month d <= 12 /\ 1 <= day d <= 31.

(** A bank that refuses every call with 403 and an error envelope. *)
Definition forbidding_bank : Platform :=
  scripted
    (fun _ => Ok (json_response 403
                    (JDict [ ("response_status", JDict [ ("status_code", JStr "FORBIDDEN") ]) ])))
    (Ok tt).


(** The body that [move_money] posts, lines 181 to 190. *)
Definition transfer_data (from_account to_account amount currency when : json) : json :=
  JDict [ ("transfers",
           JDict [ ("when", when);
                   ("amount", amount);
                   ("to_account", to_account);
                   ("from_account", from_account);
                   ("currency", currency) ]);
          ("validate_only", JBool false) ].

(** ** Running a computation *)

Section Running.
Context {P : Platform}.
Local Open Scope list_scope.

Lemma eq_str_true (v : json) (s : string) : eq_str v s = true <-> v = JStr s.
Proof.
  destruct v; simpl; try (split; [discriminate | discriminate]).
  rewrite String.eqb_eq. split; [intros -> | intros [= ->]]; reflexivity.
Qed.

Lemma eq_str_false (v : json) (s : string) : eq_str v s = false <-> v <> JStr s.
Proof.
  rewrite <- eq_str_true. destruct (eq_str v s); split; congruence.
Qed.

Lemma skipn_app_length {A} (l d : list A) : skipn (List.length l) (l ++ d) = d.
Proof. induction l; simpl; auto. Qed.

Lemma emits_events {A} (allowed : event -> bool) (m : M A) (w : world) :
  emits allowed m -> forallb allowed (events_of m w) = true.
Proof.
  intros H. destruct (H w) as (d & E & F). unfold events_of.
  rewrite E, skipn_app_length. exact F.
Qed.

Lemma emits_ret {A} allowed (a : A) : emits allowed (ret a).
Proof. intros w. exists []. simpl. rewrite app_nil_r. auto. Qed.

Lemma emits_raise {A} allowed (e : exn) : emits allowed (@raise P A e).
Proof. intros w. exists []. simpl. rewrite app_nil_r. auto. Qed.

Lemma emits_lift {A} allowed (r : result A) : emits allowed (lift r).
Proof. intros w. exists []. simpl. rewrite app_nil_r. auto. Qed.

Lemma emits_emit allowed (ev : event) : allowed ev = true -> emits allowed (emit ev).
Proof. intros H w. exists [ev]. simpl. rewrite H. auto. Qed.

Lemma emits_bind {A B} allowed (m : M A) (k : A -> M B) :
  emits allowed m -> (forall a, emits allowed (k a)) -> emits allowed (bind m k).
Proof.
  intros Hm Hk w. unfold bind.
  destruct (Hm w) as (d1 & E1 & F1).
  destruct (m w) as [[a | e] w1]; simpl in E1.
  - destruct (Hk a w1) as (d2 & E2 & F2).
    exists (d1 ++ d2). rewrite E2, E1, app_assoc, forallb_app, F1, F2. auto.
  - exists d1. simpl. auto.
Qed.

Lemma emits_if {A} allowed (b : bool) (m1 m2 : M A) :
  emits allowed m1 -> emits allowed m2 -> emits allowed (if b then m1 else m2).
Proof. destruct b; auto. Qed.

Lemma emits_cookies_get allowed (name : string) : emits allowed (cookies_get name).
Proof.
  intros w. exists []. unfold cookies_get.
  destruct (_find_no_duplicates name (cookies w) None) as [[[| c v] |] | e];
    simpl; rewrite app_nil_r; auto.
Qed.

Lemma emits_session_call allowed (rq : request) :
  allowed (EvRequest rq) = true -> emits allowed (session_call rq).
Proof.
  intros H w. exists [EvRequest rq]. unfold session_call, bind, emit. simpl.
  destruct (send rq (cookies w) (ext w)) as [[r jar] o]. simpl. rewrite H. auto.
Qed.

Lemma emits_open_write allowed (name content : string) :
  allowed (EvFileWrite name content) = true -> emits allowed (open_write name content).
Proof.
  intros H w. exists [EvFileWrite name content]. unfold open_write, bind, emit. simpl.
  destruct (write_file name content (ext w)) as [r o]. simpl. rewrite H. auto.
Qed.

Lemma emits_login_flow_call allowed ev op :
  allowed ev = true -> emits allowed (login_flow_call ev op).
Proof.
  intros H w. exists [ev]. unfold login_flow_call, bind, emit. simpl.
  destruct (op (cookies w) (ext w)) as [[r jar] o]. simpl. rewrite H. auto.
Qed.

Lemma emits_raise_for_status allowed (r : Response) : emits allowed (raise_for_status r).
Proof. unfold raise_for_status. apply emits_if; [apply emits_raise | apply emits_ret]. Qed.

(** The events of [m ;; k] are those of [m], then those of [k]. *)
Lemma events_of_bind {A B} allowed (m : M A) (k : A -> M B) (w : world) :
  emits allowed m -> (forall a, emits allowed (k a)) ->
  events_of (bind m k) w =
    events_of m w ++ match m w with
                     | (Ok a, w1) => events_of (k a) w1
                     | (Raise _, _) => []
                     end.
Proof.
  intros Hm Hk. unfold events_of, bind.
  destruct (Hm w) as (d1 & E1 & _).
  destruct (m w) as [[a | e] w1]; simpl in *.
  - destruct (Hk a w1) as (d2 & E2 & _).
    rewrite E2, E1, <- app_assoc, !skipn_app_length.
    rewrite app_assoc, <- E1, skipn_app_length. reflexivity.
  - rewrite app_nil_r. reflexivity.
Qed.

End Running.

Create HintDb emits.
#[global] Hint Resolve emits_ret emits_raise emits_lift emits_bind emits_if emits_cookies_get
  emits_raise_for_status : emits.

(** ** The response envelope *)

Section Envelope.
Context {P : Platform}.

(** C1. With the status enforced, an envelope whose
    [response_status.status_code] is ["SUCCESS"] comes back as the value
    under the payload key, unchanged, or whole when no payload key is
    given; under any other status code the wrapper raises
    [APIResponseError] carrying the envelope as it was received. *)
Theorem api_response_enforced
  (root_key : string) (fn : M json) (w w1 : world) (envelope status code : json) :
  fn w = (Ok envelope, w1) ->
  getitem envelope "response_status" = Ok status ->
  getitem status "status_code" = Ok code ->
  (code = JStr "SUCCESS" ->
     (forall payload,
         root_key <> "" -> getitem envelope root_key = Ok payload ->
         api_response root_key true fn w = (Ok payload, w1))
     /\ api_response "" true fn w = (Ok envelope, w1))
  /\ (code <> JStr "SUCCESS" ->
     api_response root_key true fn w = (Raise (APIResponseError envelope), w1)).
Proof.
  intros Hfn Hstatus Hcode. split.
  - intros ->. split.
    + intros payload Hkey Hpayload.
      unfold api_response, bind, lift, ret. rewrite Hfn, Hstatus, Hcode. simpl.
      apply String.eqb_neq in Hkey. rewrite Hkey, Hpayload. reflexivity.
    + unfold api_response, bind, lift, ret. rewrite Hfn, Hstatus, Hcode. reflexivity.
  - intros Hne. apply eq_str_false in Hne.
    unfold api_response, bind, lift, ret, raise. rewrite Hfn, Hstatus, Hcode, Hne.
    reflexivity.
Qed.

End Envelope.

(** ** What the primitives send *)

Section Requests.
Context {P : Platform}.
Local Open Scope list_scope.

Lemma events_of_eq {A} (m : M A) (w : world) (d : list event) :
  trace (snd (m w)) = trace w ++ d -> events_of m w = d.
Proof. intros E. unfold events_of. rewrite E. apply skipn_app_length. Qed.

Lemma requests_app (d1 d2 : list event) : requests (d1 ++ d2) = requests d1 ++ requests d2.
Proof.
  induction d1 as [| ev d1 IH]; simpl; auto.
  destruct ev; simpl; rewrite ?IH; reflexivity.
Qed.

Lemma file_writes_app (d1 d2 : list event) :
  file_writes (d1 ++ d2) = file_writes d1 ++ file_writes d2.
Proof.
  induction d1 as [| ev d1 IH]; simpl; auto.
  destruct ev; simpl; rewrite ?IH; reflexivity.
Qed.

Lemma decodes_app (d1 d2 : list event) : decodes (d1 ++ d2) = decodes d1 ++ decodes d2.
Proof.
  induction d1 as [| ev d1 IH]; simpl; auto.
  destruct ev; simpl; rewrite ?IH; reflexivity.
Qed.

(** A pure step leaves the world as it was. *)
Lemma lift_run {A} (r : result A) (w : world) : lift r w = (r, w).
Proof. reflexivity. Qed.

Lemma session_call_run (rq : request) (w : world) :
  session_call rq w =
    (fst (fst (send rq (cookies w) (ext w))),
     {| cookies := snd (fst (send rq (cookies w) (ext w)));
        ext := snd (send rq (cookies w) (ext w));
        trace := trace w ++ [EvRequest rq] |}).
Proof.
  unfold session_call, bind, emit. simpl.
  destruct (send rq (cookies w) (ext w)) as [[r jar] o]. reflexivity.
Qed.

Lemma session_call_events (rq : request) (w : world) :
  events_of (session_call rq) w = [EvRequest rq].
Proof. apply events_of_eq. rewrite session_call_run. reflexivity. Qed.

Lemma emits_Response_json allowed (r : Response) :
  allowed (EvJson r) = true -> emits allowed (Response_json r).
Proof.
  intros H. unfold Response_json. apply emits_bind; auto with emits.
  apply emits_emit, H.
Qed.

Lemma emits_api_get allowed (path : string) :
  (forall rq, allowed (EvRequest rq) = true) -> (forall r, allowed (EvJson r) = true) ->
  emits allowed (_api_get path).
Proof.
  intros Hrq Hjs. unfold _api_get, session_get.
  apply emits_bind; [apply emits_session_call, Hrq |].
  intros r. apply emits_bind; auto with emits.
  intros _. apply emits_Response_json, Hjs.
Qed.

Lemma emits_api_response allowed (root_key : string) (check : bool) (fn : M json) :
  emits allowed fn -> emits allowed (api_response root_key check fn).
Proof.
  intros H. unfold api_response. apply emits_bind; auto.
  intros j. apply emits_bind.
  - destruct check; auto 6 with emits.
  - intros b. repeat apply emits_if; auto with emits.
Qed.

(** The wrapper makes no call of its own. *)
Lemma api_response_events (root_key : string) (check : bool) (fn : M json) (w : world) :
  events_of (api_response root_key check fn) w = events_of fn w.
Proof.
  unfold events_of, api_response, bind, lift, ret, raise.
  destruct (fn w) as [[j | e] w1]; simpl; auto.
  destruct check; simpl.
  - destruct (getitem j "response_status") as [s | e]; simpl; auto.
    destruct (getitem s "status_code") as [c | e]; simpl; auto.
    destruct (negb (eq_str c "SUCCESS")); simpl; auto.
    destruct (String.eqb root_key ""); reflexivity.
  - destruct (String.eqb root_key ""); reflexivity.
Qed.

(** A GET through [_api_get] is one request, to the path under the REST
    root, with no header of its own. *)
Lemma api_get_requests (path : string) (w : world) :
  requests (events_of (_api_get path) w) = [Get (rest_url path) []].
Proof.
  unfold _api_get, session_get.
  rewrite (events_of_bind (fun _ => true)).
  2: apply emits_session_call; reflexivity.
  2: { intros r. apply emits_bind; auto with emits.
       intros _. apply emits_Response_json. reflexivity. }
  rewrite session_call_events, session_call_run. simpl.
  destruct (fst (fst (send _ _ _))) as [r | e]; simpl; auto.
  unfold events_of, raise_for_status, Response_json, bind, emit, lift, raise, ret.
  destruct (is_http_error r); simpl.
  - rewrite <- (app_nil_r (trace w ++ _)) at 2. rewrite skipn_app_length. reflexivity.
  - rewrite skipn_app_length. reflexivity.
Qed.

End Requests.

Ltac emits_step :=
  first
    [ apply emits_ret | apply emits_raise | apply emits_lift
    | apply emits_cookies_get | apply emits_raise_for_status
    | apply emits_session_call; reflexivity
    | apply emits_open_write; reflexivity
    | apply emits_emit; reflexivity
    | apply emits_Response_json; reflexivity
    | apply emits_login_flow_call; reflexivity
    | apply emits_api_get; intros; reflexivity
    | apply emits_api_response
    | apply emits_bind; [| intros ?]
    | apply emits_if
    | match goal with
      | |- emits _ (match ?x with _ => _ end) => destruct x
      end
    | progress unfold logger_info, logger_debug, print, session_get, session_post,
        login_flow_start, login_flow_end ].

Ltac emits := repeat emits_step.

(** ** Dates in file names and queries *)





Lemma four_digit_years :
  forallb (fun n => String.eqb (str_int (Z.of_nat n)) (zfill 4 (str_int (Z.of_nat n))))
          (seq (Z.to_nat 1000) (Z.to_nat 9000))
  = true.
Proof. vm_compute. reflexivity. Qed.

(** From the year 1000 on, the year as [%Y] prints it has its four digits. *)
Lemma four_digit_year (y : Z) : 1000 <= y <= 9999 -> str_int y = zfill 4 (str_int y).
Proof.
  intros Hy.
  pose proof (proj1 (forallb_forall _ _) four_digit_years (Z.to_nat y)) as H.
  cbv beta in H. rewrite Z2Nat.id in H by lia. apply String.eqb_eq, H, in_seq. lia.
Qed.


(** ** Statement download *)

Section Download.
Context {P : Platform}.
Local Open Scope list_scope.

Lemma requests_none (d : list event) : forallb no_request d = true -> requests d = [].
Proof.
  induction d as [| ev d IH]; simpl; auto.
  destruct ev; simpl; try discriminate; auto.
Qed.

Lemma file_writes_none (d : list event) : forallb no_file_write d = true -> file_writes d = [].
Proof.
  induction d as [| ev d IH]; simpl; auto.
  destruct ev; simpl; try discriminate; auto.
Qed.

Lemma decodes_none (d : list event) : forallb no_decode d = true -> decodes d = [].
Proof.
  induction d as [| ev d IH]; simpl; auto.
  destruct ev; simpl; try discriminate; auto.
Qed.

Lemma events_of_ext {A} (m m' : M A) (w : world) : m w = m' w -> events_of m w = events_of m' w.
Proof. unfold events_of. intros ->. reflexivity. Qed.

Lemma emits_get_account allowed (number : json) :
  (forall rq, allowed (EvRequest rq) = true) -> (forall r, allowed (EvJson r) = true) ->
  emits allowed (get_account number).
Proof. intros Hrq Hjs. unfold get_account. apply emits_api_response, emits_api_get; auto. Qed.

Lemma emits_token allowed :
  (forall rq, allowed (EvRequest rq) = true) -> (forall r, allowed (EvJson r) = true) ->
  emits allowed _get_transaction_download_token.
Proof.
  intros Hrq Hjs. unfold _get_transaction_download_token.
  apply emits_api_response, emits_api_get; auto.
Qed.

Lemma emits_download_ofx_names allowed (account : json) :
  (forall rq, allowed (EvRequest rq) = true) -> (forall r, allowed (EvJson r) = true) ->
  emits allowed (download_ofx_names account).
Proof.
  intros Hrq Hjs. unfold download_ofx_names.
  repeat first [ apply emits_get_account; assumption | emits_step ].
Qed.

Lemma emits_download_ofx_fetch ty dn nn sd ed save :
  emits any_event (download_ofx_fetch ty dn nn sd ed save).
Proof.
  unfold download_ofx_fetch.
  apply emits_bind; [apply emits_token; reflexivity | intros token].
  emits.
Qed.


Lemma token_requests (w : world) :
  requests (events_of _get_transaction_download_token w) = [token_request].
Proof.
  unfold _get_transaction_download_token. rewrite api_response_events.
  apply api_get_requests.
Qed.

(** The download asks for a token, then for the file, under the type code
    and the two names it was given, and sends nothing else. *)
Lemma download_ofx_fetch_requests ty dn nn sd ed save (w : world) :
  requests (events_of (download_ofx_fetch ty dn nn sd ed save) w) = [token_request]
  \/ exists token,
       requests (events_of (download_ofx_fetch ty dn nn sd ed save) w)
       = [token_request; ofx_request ty dn nn token sd ed].
Proof.
  unfold download_ofx_fetch.
  rewrite (events_of_bind any_event); [| apply emits_token; reflexivity | intros; emits].
  rewrite requests_app, token_requests.
  destruct (_get_transaction_download_token w) as [[token | e] w1]; [right | left; reflexivity].
  exists token.
  rewrite (events_of_bind any_event); [| emits | intros; emits].
  rewrite requests_app, session_call_events. simpl. do 2 f_equal.
  destruct (session_call _ w1) as [[r | e] w2]; [| reflexivity].
  apply requests_none, emits_events. emits.
Qed.

(** C2. For an account of type CHEQUING or SAVINGS the download is made
    under the type code ["SAVINGS"] and the account's own [display_name]
    and [nickname]; the names are found without a call of any kind, and
    the requests of the whole operation are the token request and then the
    download itself: no account lookup. *)
Theorem download_ofx_deposit_account
  (account : json) (start_date end_date : date) (save : bool) (w : world)
  (type : string) (display_name nickname : json) :
  getitem account "type" = Ok (JStr type) ->
  type = "CHEQUING"%string \/ type = "SAVINGS"%string ->
  getitem account "display_name" = Ok display_name ->
  getitem account "nickname" = Ok nickname ->
  download_ofx_names account w = (Ok ("SAVINGS"%string, display_name, nickname), w)
  /\ download_ofx account start_date end_date save w
     = download_ofx_fetch "SAVINGS" display_name nickname start_date end_date save w
  /\ (requests (events_of (download_ofx account start_date end_date save) w) = [token_request]
      \/ exists token,
           requests (events_of (download_ofx account start_date end_date save) w)
           = [token_request;
              ofx_request "SAVINGS" display_name nickname token start_date end_date]).
Proof.
  intros Htype Hdeposit Hdisplay Hnick.
  assert (Hnames :
    download_ofx_names account w = (Ok ("SAVINGS"%string, display_name, nickname), w)).
  { unfold download_ofx_names, bind, lift, ret.
    rewrite Htype, Hdisplay, Hnick. destruct Hdeposit as [-> | ->]; reflexivity. }
  assert (Hrun :
    download_ofx account start_date end_date save w
    = download_ofx_fetch "SAVINGS" display_name nickname start_date end_date save w).
  { unfold download_ofx, bind. rewrite Hnames. reflexivity. }
  repeat split; auto.
  rewrite (events_of_ext _ _ _ Hrun). apply download_ofx_fetch_requests.
Qed.

(** C3. For an account of type CREDIT_CARD the first call of the operation
    is the account lookup, [get_account] on the account's [number]; when
    the lookup returns, the download is made under ["CREDITLINE"] and the
    [display_name] and [account_nick_name] of the record it returned. *)
Theorem download_ofx_credit_card
  (account : json) (start_date end_date : date) (save : bool) (w : world) (number : json) :
  getitem account "type" = Ok (JStr "CREDIT_CARD") ->
  getitem account "number" = Ok number ->
  (exists rest,
      events_of (download_ofx account start_date end_date save) w
      = EvRequest (account_request number) :: rest)
  /\ forall (details display_name nickname : json) (w1 : world),
       get_account number w = (Ok details, w1) ->
       getitem details "display_name" = Ok display_name ->
       getitem details "account_nick_name" = Ok nickname ->
       download_ofx_names account w = (Ok ("CREDITLINE"%string, display_name, nickname), w1)
       /\ download_ofx account start_date end_date save w
          = download_ofx_fetch "CREDITLINE" display_name nickname start_date end_date save w1.
Proof.
  intros Htype Hnumber.
  assert (Hnames : forall w0,
    download_ofx_names account w0
    = bind (get_account number)
        (fun account_details =>
           account_display_name <- lift (getitem account_details "display_name") ;;
           account_nickname <- lift (getitem account_details "account_nick_name") ;;
           ret ("CREDITLINE"%string, account_display_name, account_nickname)) w0).
  { intros w0. unfold download_ofx_names. rewrite Htype, Hnumber. reflexivity. }
  split.
  - unfold download_ofx.
    rewrite (events_of_bind any_event);
      [| apply emits_download_ofx_names; reflexivity
       | intros [[ty dn] nn]; apply emits_download_ofx_fetch ].
    rewrite (events_of_ext _ _ _ (Hnames w)).
    rewrite (events_of_bind any_event); [| apply emits_get_account; reflexivity | intros; emits].
    unfold get_account at 1. rewrite api_response_events.
    unfold _api_get at 1, session_get.
    rewrite (events_of_bind any_event); [| emits | intros; emits].
    rewrite session_call_events. simpl. eexists. reflexivity.
  - intros details display_name nickname w1 Hlookup Hdisplay Hnick.
    assert (Hrun :
      download_ofx_names account w = (Ok ("CREDITLINE"%string, display_name, nickname), w1)).
    { rewrite Hnames. unfold bind, lift, ret. rewrite Hlookup, Hdisplay, Hnick. reflexivity. }
    split; auto.
    unfold download_ofx, bind. rewrite Hrun. reflexivity.
Qed.

(** C4. For an account whose type is none of CHEQUING, SAVINGS and
    CREDIT_CARD the operation raises [UnsupportedAccountTypeForDownload]
    with that type, and the world is as it was: no request, no token, no
    lookup, no download has been made. *)
Theorem download_ofx_unsupported
  (account : json) (start_date end_date : date) (save : bool) (w : world) (type : json) :
  getitem account "type" = Ok type ->
  type <> JStr "CHEQUING" -> type <> JStr "SAVINGS" -> type <> JStr "CREDIT_CARD" ->
  download_ofx account start_date end_date save w
  = (Raise (UnsupportedAccountTypeForDownload type), w)
  /\ events_of (download_ofx account start_date end_date save) w = [].
Proof.
  intros Htype H1 H2 H3.
  apply eq_str_false in H1, H2, H3.
  assert (Hrun :
    download_ofx account start_date end_date save w
    = (Raise (UnsupportedAccountTypeForDownload type), w)).
  { unfold download_ofx, download_ofx_names, bind, lift, raise.
    rewrite Htype, H1, H2, H3. reflexivity. }
  split; auto.
  apply events_of_eq. rewrite Hrun. simpl. rewrite app_nil_r. reflexivity.
Qed.



End Download.


(** ** Transactions *)

Section Transactions.
Context {P : Platform}.
Local Open Scope list_scope.

(** C6. [list_transactions(['acc1'], 2023-01-01, 2023-01-31)] makes one
    request, a GET with no header of its own; read as a query string
    ([parse_qsl]), its query holds [accountIdentifiers=acc1],
    [hideAuthorizedStatus=True], [periodFrom=2023-01-01T00:00:00.000Z],
    [periodTo=2023-01-31T00:00:00.000Z] and [skip=0], and nothing else.
    On the wire [urlencode] has written the colons as [%3A]. *)
Theorem list_transactions_request (w : world) :
  exists url,
    requests (events_of (list_transactions [JStr "acc1"] jan_1 jan_31) w) = [Get url []]
    /\ parse_qsl (query_string url)
       = [ ("accountIdentifiers", "acc1");
           ("hideAuthorizedStatus", "True");
           ("periodFrom", "2023-01-01T00:00:00.000Z");
           ("periodTo", "2023-01-31T00:00:00.000Z");
           ("skip", "0") ]%string
    /\ url = ("https://secure.tangerine.ca/web/rest/pfm/v1/transactions"
                ++ "?accountIdentifiers=acc1&hideAuthorizedStatus=True"
                ++ "&periodFrom=2023-01-01T00%3A00%3A00.000Z"
                ++ "&periodTo=2023-01-31T00%3A00%3A00.000Z&skip=0")%string.
Proof.
  eexists. split; [| split; [| reflexivity]].
  - unfold list_transactions. rewrite api_response_events.
    rewrite (events_of_ext _
               (_api_get ("/pfm/v1/transactions?accountIdentifiers=acc1&hideAuthorizedStatus=True"
                            ++ "&periodFrom=2023-01-01T00%3A00%3A00.000Z"
                            ++ "&periodTo=2023-01-31T00%3A00%3A00.000Z&skip=0")%string) w)
      by reflexivity.
    rewrite api_get_requests. reflexivity.
  - vm_compute. reflexivity.
Qed.

End Transactions.

(** ** Write operations *)

Section Posting.
Context {P : Platform}.
Local Open Scope list_scope.

(** Reading a cookie leaves the world as it was. *)
Lemma cookies_get_world (name : string) (w : world) : snd (cookies_get name w) = w.
Proof.
  unfold cookies_get.
  destruct (_find_no_duplicates name (cookies w) None) as [[[| c v] |] | e]; reflexivity.
Qed.

Lemma cookies_get_found (name token : string) (w : world) :
  _find_no_duplicates name (cookies w) None = Ok (Some token) -> token <> ""%string ->
  cookies_get name w = (Ok (JStr token), w).
Proof.
  intros H Hne. unfold cookies_get. rewrite H.
  destruct token; [contradiction | reflexivity].
Qed.

(** What [_api_post] does, by the answer of the transport. *)
Lemma api_post_run (path : string) (data token : json) (w : world) :
  cookies_get "TRANSACTION_TOKEN" w = (Ok token, w) ->
  _api_post path data w =
    match send (Post (rest_url path) (post_headers token) data) (cookies w) (ext w) with
    | (Ok response, jar, files) =>
        if is_http_error response then
          (Raise (HTTPError (status_code response)),
           {| cookies := jar; ext := files;
              trace := trace w ++ [EvRequest (Post (rest_url path) (post_headers token) data)] |})
        else
          (Ok response,
           {| cookies := jar; ext := files;
              trace := trace w ++ [EvRequest (Post (rest_url path) (post_headers token) data);
                                   EvLog "DEBUG" (text response)] |})
    | (Raise e, jar, files) =>
        (Raise e,
         {| cookies := jar; ext := files;
            trace := trace w ++ [EvRequest (Post (rest_url path) (post_headers token) data)] |})
    end.
Proof.
  intros Htoken. unfold _api_post, bind at 1. rewrite Htoken.
  unfold session_post, bind at 1. rewrite session_call_run.
  destruct (send _ (cookies w) (ext w)) as [[[response | e] jar] files]; simpl; auto.
  unfold raise_for_status, logger_debug, emit, bind, raise, ret.
  destruct (is_http_error response); simpl; auto.
  rewrite <- app_assoc. reflexivity.
Qed.

Lemma api_post_requests (path : string) (data : json) (w : world) :
  requests (events_of (_api_post path data) w) =
    match fst (cookies_get "TRANSACTION_TOKEN" w) with
    | Ok token => [Post (rest_url path) (post_headers token) data]
    | Raise _ => []
    end.
Proof.
  pose proof (cookies_get_world "TRANSACTION_TOKEN" w) as Hw.
  destruct (cookies_get "TRANSACTION_TOKEN" w) as [[token | e] w'] eqn:Hget;
    simpl in Hw; subst w'; simpl.
  - unfold events_of. rewrite (api_post_run _ _ _ _ Hget).
    destruct (send _ (cookies w) (ext w)) as [[[response | e] jar] files]; simpl;
      [destruct (is_http_error response); simpl |]; rewrite skipn_app_length; reflexivity.
  - unfold events_of, _api_post, bind. rewrite Hget. simpl.
    rewrite <- (app_nil_r (trace w)) at 2. rewrite skipn_app_length. reflexivity.
Qed.

(** C7, as the client does it.  The token that the cookie store holds
    under TRANSACTION_TOKEN is the [x-transaction-token] header of the one
    POST that [_api_post] sends; when the answer has a 4xx or 5xx status,
    [_api_post] raises [HTTPError] with the request as the last event:
    nothing is logged and nothing decoded; under any other status the
    response is logged and handed to the caller, who decodes it. *)
Theorem api_post_token_and_status (path : string) (data : json) (w : world) (token : string) :
  _find_no_duplicates "TRANSACTION_TOKEN" (cookies w) None = Ok (Some token) ->
  token <> ""%string ->
  let rq := Post (rest_url path) (post_headers (JStr token)) data in
  dict_get "x-transaction-token" (post_headers (JStr token)) = Some (JStr token)
  /\ requests (events_of (_api_post path data) w) = [rq]
  /\ forall (response : Response) (jar : cookiejar) (files : outside),
       send rq (cookies w) (ext w) = (Ok response, jar, files) ->
       (400 <= status_code response < 600 ->
          _api_post path data w
          = (Raise (HTTPError (status_code response)),
             {| cookies := jar; ext := files; trace := trace w ++ [EvRequest rq] |}))
       /\ (~ 400 <= status_code response < 600 ->
          _api_post path data w
          = (Ok response,
             {| cookies := jar; ext := files;
                trace := trace w ++ [EvRequest rq; EvLog "DEBUG" (text response)] |})).
Proof.
  intros Hjar Hne rq.
  pose proof (cookies_get_found _ _ _ Hjar Hne) as Hget.
  split; [reflexivity | split].
  - rewrite api_post_requests, Hget. reflexivity.
  - intros response jar files Hsend.
    rewrite (api_post_run _ _ _ _ Hget). fold rq. rewrite Hsend.
    unfold is_http_error. split; intros Hstatus.
    + replace (400 <=? status_code response) with true by (symmetry; apply Z.leb_le; lia).
      replace (status_code response <? 600) with true by (symmetry; apply Z.ltb_lt; lia).
      reflexivity.
    + destruct (400 <=? status_code response) eqn:Hlo; [| reflexivity].
      destruct (status_code response <? 600) eqn:Hhi; [| reflexivity].
      apply Z.leb_le in Hlo. apply Z.ltb_lt in Hhi. lia.
Qed.

End Posting.

(** C7, as the specification words it: 304 is no 2xx status, and the POST that it
    answers raises nothing; [move_money] goes on to decode the body. *)
Lemma api_post_304_is_no_error :
  fst (@_api_post unchanged_bank "/v1/accounts/3141/transactions/movemoney" (JDict [])
         (@logged_in unchanged_bank []))
  = Ok (text_response 304 "")
  /\ decodes (@events_of unchanged_bank _ a_transfer (@logged_in unchanged_bank []))
     = [text_response 304 ""].
Proof. split; vm_compute; reflexivity. Qed.

Section WriteOperations.
Context {P : Platform}.
Local Open Scope list_scope.

(** What the decorator makes of a function that returns [None]. *)
Lemma api_response_of_none (root_key : string) (fn : M json) (w : world) :
  (forall v, fst (fn w) = Ok v -> v = JNone) ->
  api_response root_key true fn w
  = (match fst (fn w) with
     | Ok _ => Raise TypeError
     | Raise e => Raise e
     end, snd (fn w)).
Proof.
  intros Hnone. unfold api_response, bind at 1.
  destruct (fn w) as [[v | e] w1]; simpl in *; auto.
  rewrite (Hnone v eq_refl). reflexivity.
Qed.

Lemma move_money_fn_returns_none
  (account_id from_account to_account amount currency when v : json) (w : world) :
  fst (move_money_fn account_id from_account to_account amount currency when w) = Ok v ->
  v = JNone.
Proof.
  unfold move_money_fn, print, Response_json, bind, emit, lift, ret. simpl.
  destruct (_api_post _ _ _) as [[response | e] w1]; simpl; [| discriminate].
  destruct (json_body response); simpl; [| discriminate].
  intros [= <-]. reflexivity.
Qed.

Lemma email_money_fn_returns_none
  (source_account_number recipient_sequence_number amount when : json)
  (scheduled_date : date) (emt_type v : json) (w : world) :
  fst (email_money_fn source_account_number recipient_sequence_number amount when
         scheduled_date emt_type w) = Ok v ->
  v = JNone.
Proof.
  unfold email_money_fn, print, Response_json, bind, emit, lift, ret.
  destruct (_api_post _ _ _) as [[response | e] w1]; simpl; [| discriminate].
  destruct (json_body response); simpl; [| discriminate].
  intros [= <-]. reflexivity.
Qed.

(** C9. The bodies of [move_money] and [email_money] return nothing but
    [None]; the decorator subscripts that [None] and raises [TypeError],
    so neither operation ever returns: it ends in the exception of its
    body, or, the POST done and its answer printed, in [TypeError]. *)
Theorem write_operations_never_return
  (account_id from_account to_account amount currency when : json)
  (source_account_number recipient_sequence_number : json)
  (scheduled_date : date) (emt_type : json) (w : world) :
  let transfer := move_money_fn account_id from_account to_account amount currency when in
  let emt :=
    email_money_fn source_account_number recipient_sequence_number amount when
      scheduled_date emt_type in
  ((forall v, fst (transfer w) = Ok v -> v = JNone)
   /\ move_money account_id from_account to_account amount currency when w
      = (match fst (transfer w) with
         | Ok _ => Raise TypeError
         | Raise e => Raise e
         end, snd (transfer w)))
  /\ ((forall v, fst (emt w) = Ok v -> v = JNone)
      /\ email_money source_account_number recipient_sequence_number amount when
           scheduled_date emt_type w
         = (match fst (emt w) with
            | Ok _ => Raise TypeError
            | Raise e => Raise e
            end, snd (emt w))).
Proof.
  intros transfer emt. split; split.
  - intros v. apply move_money_fn_returns_none.
  - apply api_response_of_none. intros v. apply move_money_fn_returns_none.
  - intros v. apply email_money_fn_returns_none.
  - apply api_response_of_none. intros v. apply email_money_fn_returns_none.
Qed.

(** C10. Whatever the arguments, the body that [email_money] posts holds
    [accepted_terms_and_conditions] as [True] and [message] as the empty
    string under [emt], and the one request the operation makes, if it
    makes one, is the POST of that body. *)
Theorem email_money_fixed_fields
  (source_account_number recipient_sequence_number amount when : json)
  (scheduled_date : date) (emt_type : json) (w : world) :
  let data :=
    email_money_data recipient_sequence_number amount when scheduled_date emt_type in
  (exists emt,
      getitem data "emt" = Ok emt
      /\ getitem emt "accepted_terms_and_conditions" = Ok (JBool true)
      /\ getitem emt "message" = Ok (JStr ""))
  /\ requests (events_of (email_money source_account_number recipient_sequence_number amount
                            when scheduled_date emt_type) w)
     = match fst (cookies_get "TRANSACTION_TOKEN" w) with
       | Ok token =>
           [ Post (rest_url ("/v1/accounts/" ++ py_str source_account_number
                               ++ "/transactions/emts")%string)
               (post_headers token) data ]
       | Raise _ => []
       end.
Proof.
  intros data. split.
  - eexists. repeat split; reflexivity.
  - unfold email_money. rewrite api_response_events. unfold email_money_fn.
    rewrite (events_of_bind any_event).
    2: { unfold _api_post. emits. }
    2: { intros; emits. }
    rewrite requests_app, api_post_requests. fold data.
    rewrite <- (app_nil_r (match fst (cookies_get _ w) with Ok _ => _ | Raise _ => _ end)) at 2.
    f_equal.
    destruct (_api_post _ data w) as [[response | e] w1]; [| reflexivity].
    apply requests_none, emits_events. emits.
Qed.

(** ** The login scope *)


End WriteOperations.


(** ** The theorems at work on the bank in good order *)

(** C1 at work: [me] unwraps the customer of a SUCCESS envelope, and an
    envelope marked FAILED is raised whole. *)
Lemma api_response_enforced_witness :
  @api_response good_bank "customer" true (_api_get "/v1/customers/my") (@fresh good_bank [])
  = (Ok (JDict [ ("title", JStr "MS") ]),
     snd (@_api_get good_bank "/v1/customers/my" (@fresh good_bank [])))
  /\ @api_response good_bank "customer" true
       (ret (JDict [ ("response_status", JDict [ ("status_code", JStr "FAILED") ]) ]))
       (@fresh good_bank [])
     = (Raise (APIResponseError
                 (JDict [ ("response_status", JDict [ ("status_code", JStr "FAILED") ]) ])),
        @fresh good_bank []).
Proof.
  split.
  - apply (proj1 (@api_response_enforced good_bank "customer" (_api_get "/v1/customers/my")
                    (@fresh good_bank [])
                    (snd (@_api_get good_bank "/v1/customers/my" (@fresh good_bank [])))
                    (JDict [ success_status; ("customer", JDict [ ("title", JStr "MS") ]) ])
                    (JDict [ ("status_code", JStr "SUCCESS") ])
                    (JStr "SUCCESS") eq_refl eq_refl eq_refl) eq_refl).
    + discriminate.
    + reflexivity.
  - apply (proj2 (@api_response_enforced good_bank "customer"
                    (ret (JDict [ ("response_status",
                                   JDict [ ("status_code", JStr "FAILED") ]) ]))
                    (@fresh good_bank []) (@fresh good_bank [])
                    (JDict [ ("response_status", JDict [ ("status_code", JStr "FAILED") ]) ])
                    (JDict [ ("status_code", JStr "FAILED") ])
                    (JStr "FAILED") eq_refl eq_refl eq_refl)).
    discriminate.
Defined.

(** C2 at work: a chequing account is downloaded as SAVINGS under its own
    names, and the first request is for the token. *)
Lemma download_ofx_deposit_account_witness :
  @download_ofx_names good_bank a_chequing_account (@fresh good_bank [])
  = (Ok ("SAVINGS", JStr "3141", JStr "Daily"), @fresh good_bank []).
Proof.
  apply (proj1 (@download_ofx_deposit_account good_bank a_chequing_account jan_1 jan_31 true
                  (@fresh good_bank []) "CHEQUING" (JStr "3141") (JStr "Daily")
                  eq_refl (or_introl eq_refl) eq_refl eq_refl)).
Defined.

(** C3 at work: a credit card is downloaded as CREDITLINE under the names
    of the record that the lookup returned. *)
Lemma download_ofx_credit_card_witness :
  @download_ofx good_bank a_credit_card jan_1 jan_31 false (@fresh good_bank [])
  = @download_ofx_fetch good_bank "CREDITLINE" (JStr "5360 1234") (JStr "Card") jan_1 jan_31 false
      (snd (@get_account good_bank (JStr "X") (@fresh good_bank []))).
Proof.
  apply (proj2 (@download_ofx_credit_card good_bank a_credit_card jan_1 jan_31 false
                  (@fresh good_bank []) (JStr "X") eq_refl eq_refl)
           (JDict [ ("display_name", JStr "5360 1234"); ("account_nick_name", JStr "Card") ])
           (JStr "5360 1234") (JStr "Card")
           (snd (@get_account good_bank (JStr "X") (@fresh good_bank [])))
           eq_refl eq_refl eq_refl).
Defined.

(** C4 at work: a mortgage is refused, and nothing has been sent. *)
Lemma download_ofx_unsupported_witness :
  @download_ofx good_bank a_loan jan_1 jan_31 true (@fresh good_bank [])
  = (Raise (UnsupportedAccountTypeForDownload (JStr "MORTGAGE")), @fresh good_bank []).
Proof.
  apply (@download_ofx_unsupported good_bank a_loan jan_1 jan_31 true (@fresh good_bank [])
           (JStr "MORTGAGE") eq_refl); discriminate.
Defined.


(** C7 at work: logged in, the POST carries the token of the cookie. *)
Lemma api_post_token_and_status_witness :
  requests (@events_of good_bank _
              (_api_post "/v1/accounts/3141/transactions/movemoney" (JDict []))
              (@logged_in good_bank []))
  = [ Post "https://secure.tangerine.ca/web/rest/v1/accounts/3141/transactions/movemoney"
        (post_headers (JStr "t0k3n")) (JDict []) ].
Proof.
  assert (Hne : "t0k3n"%string <> ""%string) by discriminate.
  exact (proj1 (proj2 (@api_post_token_and_status good_bank
                         "/v1/accounts/3141/transactions/movemoney" (JDict [])
                         (@logged_in good_bank []) "t0k3n" eq_refl Hne))).
Defined.


(** C9 at work: logged in, the transfer is posted, answered with 200 and
    its answer decoded; what comes back is [TypeError]. *)
Example a_transfer_ends_in_TypeError :
  fst (@a_transfer good_bank (@logged_in good_bank [])) = Raise TypeError
  /\ map status_code (decodes (@events_of good_bank _ a_transfer (@logged_in good_bank [])))
     = [200].
Proof. split; vm_compute; reflexivity. Qed.

(** C10 at work: the body of an e-transfer, whatever the caller passes. *)
Example email_money_body :
  email_money_data (JInt 4) (JFloat "12.5") (JStr "NOW") jan_31 (JStr "INTERAC_EMT")
  = JDict [ ("validate_only", JBool false);
            ("emt",
             JDict [ ("emt_type", JStr "INTERAC_EMT");
                     ("amount", JFloat "12.5");
                     ("recipient_sequence_number", JInt 4);
                     ("message", JStr "");
                     ("accepted_terms_and_conditions", JBool true);
                     ("when", JStr "NOW");
                     ("scheduled_date", JStr "2023-01-31") ]) ].
Proof. reflexivity. Qed.

(** ** More on the response envelope *)

Section EnvelopeEdges.
Context {P : Platform}.
Local Open Scope list_scope.

(** X1. The decorator is transparent to everything but the value: an
    exception of the wrapped function leaves the wrapper as it is, in the
    world the function left, and after any call the cookies, the outside
    and the trace are those the function left behind. *)
Theorem api_response_transparent
  (root_key : string) (check_response_status : bool) (fn : M json) (w : world) :
  snd (api_response root_key check_response_status fn w) = snd (fn w)
  /\ forall e, fst (fn w) = Raise e ->
       fst (api_response root_key check_response_status fn w) = Raise e.
Proof.
  unfold api_response, bind, lift, ret, raise.
  destruct (fn w) as [[j | e] w1]; simpl.
  - split; [| discriminate].
    destruct check_response_status; simpl.
    + destruct (getitem j "response_status") as [s | e]; simpl; auto.
      destruct (getitem s "status_code") as [c | e]; simpl; auto.
      destruct (negb (eq_str c "SUCCESS")); simpl; auto.
      destruct (String.eqb root_key ""); reflexivity.
    + destruct (String.eqb root_key ""); reflexivity.
  - split; [reflexivity | intros e' [= ->]; reflexivity].
Qed.

(** X2. With the status enforced, what is not an envelope fails in the
    subscript, not as [APIResponseError]: a value that is no dict raises
    [TypeError]; a dict with no [response_status] raises [KeyError] of
    that name, with no [status_code] under it [KeyError] of that one; and
    a SUCCESS envelope that lacks the payload key raises [KeyError] of the
    payload key. *)
Theorem api_response_malformed
  (root_key : string) (fn : M json) (w w1 : world) (envelope : json) :
  fn w = (Ok envelope, w1) ->
  ((forall items, envelope <> JDict items) ->
     api_response root_key true fn w = (Raise TypeError, w1))
  /\ (forall items,
        envelope = JDict items -> dict_get "response_status" items = None ->
        api_response root_key true fn w = (Raise (KeyError "response_status"), w1))
  /\ (forall items fields,
        envelope = JDict items ->
        dict_get "response_status" items = Some (JDict fields) ->
        dict_get "status_code" fields = None ->
        api_response root_key true fn w = (Raise (KeyError "status_code"), w1))
  /\ (forall items status,
        envelope = JDict items ->
        dict_get "response_status" items = Some status ->
        getitem status "status_code" = Ok (JStr "SUCCESS") ->
        root_key <> ""%string -> dict_get root_key items = None ->
        api_response root_key true fn w = (Raise (KeyError root_key), w1)).
Proof.
  intros Hfn. repeat split.
  - intros Hnodict. unfold api_response, bind, lift. rewrite Hfn.
    destruct envelope; try reflexivity. exfalso. apply (Hnodict items). reflexivity.
  - intros items Hdict Hnone. subst envelope.
    unfold api_response, bind, lift. rewrite Hfn. simpl. rewrite Hnone. reflexivity.
  - intros items fields Hdict Hstatus Hnone. subst envelope.
    unfold api_response, bind, lift. rewrite Hfn. simpl.
    rewrite Hstatus. simpl. rewrite Hnone. reflexivity.
  - intros items status Hdict Hstatus Hcode Hkey Hnone. subst envelope.
    unfold api_response, bind, lift, ret. rewrite Hfn. simpl.
    rewrite Hstatus, Hcode. simpl.
    apply String.eqb_neq in Hkey. rewrite Hkey, Hnone. reflexivity.
Qed.

(** X3. With the status check off, as for the download token, the status
    of the envelope is never looked at: whatever [response_status] holds,
    or if it is missing, the wrapper returns the value under the payload
    key. *)
Theorem token_status_is_not_checked (w w1 : world) (envelope token : json) :
  _api_get "/v1/customers/my/security/transaction-download-token" w = (Ok envelope, w1) ->
  getitem envelope "token" = Ok token ->
  _get_transaction_download_token w = (Ok token, w1).
Proof.
  intros Hget Htoken.
  unfold _get_transaction_download_token, api_response, bind, lift, ret.
  rewrite Hget. simpl. rewrite Htoken. reflexivity.
Qed.

(** What [_api_get] does, by the answer of the transport. *)
Lemma api_get_run (path : string) (w : world) :
  _api_get path w =
    match send (Get (rest_url path) []) (cookies w) (ext w) with
    | (Ok response, jar, files) =>
        if is_http_error response then
          (Raise (HTTPError (status_code response)),
           {| cookies := jar; ext := files;
              trace := trace w ++ [EvRequest (Get (rest_url path) [])] |})
        else
          (json_body response,
           {| cookies := jar; ext := files;
              trace := trace w ++ [EvRequest (Get (rest_url path) []); EvJson response] |})
    | (Raise e, jar, files) =>
        (Raise e,
         {| cookies := jar; ext := files;
            trace := trace w ++ [EvRequest (Get (rest_url path) [])] |})
    end.
Proof.
  unfold _api_get, session_get, bind at 1. rewrite session_call_run.
  destruct (send _ (cookies w) (ext w)) as [[[response | e] jar] files]; simpl; auto.
  unfold raise_for_status, Response_json, emit, bind, raise, ret, lift.
  destruct (is_http_error response); simpl; auto.
  rewrite <- app_assoc. reflexivity.
Qed.

Lemma is_http_error_range (r : Response) :
  is_http_error r = true <-> 400 <= status_code r < 600.
Proof.
  unfold is_http_error. rewrite andb_true_iff, Z.leb_le, Z.ltb_lt. reflexivity.
Qed.

(** X4. In a read the transport comes first: when the GET is answered
    with a 4xx or 5xx status, the operation raises [HTTPError] with that
    status and the body is not decoded, be it an envelope or not, so no
    [APIResponseError] can come of it; when the transport itself raises,
    that exception is the outcome. *)
Theorem read_transport_error_first
  (root_key : string) (check_response_status : bool) (path : string) (w : world)
  (jar : cookiejar) (files : outside) :
  (forall response,
      send (Get (rest_url path) []) (cookies w) (ext w) = (Ok response, jar, files) ->
      400 <= status_code response < 600 ->
      api_response root_key check_response_status (_api_get path) w
      = (Raise (HTTPError (status_code response)),
         {| cookies := jar; ext := files;
            trace := trace w ++ [EvRequest (Get (rest_url path) [])] |}))
  /\ (forall e,
        send (Get (rest_url path) []) (cookies w) (ext w) = (Raise e, jar, files) ->
        api_response root_key check_response_status (_api_get path) w
        = (Raise e,
           {| cookies := jar; ext := files;
              trace := trace w ++ [EvRequest (Get (rest_url path) [])] |})).
Proof.
  split.
  - intros response Hsend Hstatus. apply is_http_error_range in Hstatus.
    unfold api_response, bind at 1. rewrite api_get_run, Hsend, Hstatus. reflexivity.
  - intros e Hsend.
    unfold api_response, bind at 1. rewrite api_get_run, Hsend. reflexivity.
Qed.

End EnvelopeEdges.

(** ** What quoting keeps out of a URL *)

Section Quoting.
Local Open Scope list_scope.

Lemma count_char_app (c : ascii) (a b : string) :
  count_char c (a ++ b)%string = (count_char c a + count_char c b)%nat.
Proof. induction a as [| d a IH]; simpl; auto. rewrite IH. lia. Qed.

Lemma mem_ascii_app (c : ascii) (a b : string) :
  mem_ascii c (a ++ b)%string = mem_ascii c a || mem_ascii c b.
Proof. induction a as [| d a IH]; simpl; auto. rewrite IH, orb_assoc. reflexivity. Qed.

Lemma string_app_assoc (a b c : string) : ((a ++ b) ++ c = a ++ (b ++ c))%string.
Proof. induction a as [| d a IH]; simpl; congruence. Qed.

Lemma quote_app (safe a b : string) :
  quote safe (a ++ b)%string = (quote safe a ++ quote safe b)%string.
Proof.
  induction a as [| c a IH]; simpl; auto.
  rewrite IH, string_app_assoc. reflexivity.
Qed.

Lemma hex_digit_is_hex (n : nat) : mem_ascii (hex_digit n) "0123456789ABCDEF" = true.
Proof. do 16 (destruct n as [| n]; [reflexivity |]). reflexivity. Qed.

Lemma mem_ascii_count (c : ascii) (s : string) : mem_ascii c s = false -> count_char c s = 0%nat.
Proof.
  induction s as [| d s IH]; simpl; auto.
  destruct (Ascii.eqb c d); simpl; [discriminate | auto].
Qed.

(** A character that is neither safe nor part of an escape is not in the
    output of [quote]. *)
Lemma quote_keeps_out (c : ascii) (safe s : string) :
  always_safe c = false -> mem_ascii c safe = false ->
  mem_ascii c "%0123456789ABCDEF" = false ->
  count_char c (quote safe s) = 0%nat.
Proof.
  intros Hsafe Hextra Hhex. induction s as [| d s IH]; simpl; auto.
  rewrite count_char_app, IH, Nat.add_0_r.
  destruct (always_safe d || mem_ascii d safe) eqn:Hd.
  - simpl. destruct (Ascii.eqb c d) eqn:Hcd; auto.
    apply Ascii.eqb_eq in Hcd. subst d. rewrite Hsafe, Hextra in Hd. discriminate.
  - apply mem_ascii_count. unfold percent.
    simpl in Hhex. apply orb_false_iff in Hhex as [Hpct Hdigits].
    simpl. rewrite Hpct. simpl.
    assert (Hne : forall n, Ascii.eqb c (hex_digit n) = false).
    { intros n. destruct (Ascii.eqb c (hex_digit n)) eqn:E; auto.
      apply Ascii.eqb_eq in E. pose proof (hex_digit_is_hex n) as Hn.
      rewrite <- E in Hn. simpl in Hn. rewrite Hn in Hdigits. discriminate. }
    rewrite !Hne. reflexivity.
Qed.

Lemma spaces_to_plus_count (c : ascii) (s : string) :
  Ascii.eqb c "+" = false -> Ascii.eqb c " " = false ->
  count_char c (spaces_to_plus s) = count_char c s.
Proof.
  intros Hplus Hspace. induction s as [| d s IH]; simpl; auto.
  rewrite IH. destruct (Ascii.eqb d " ") eqn:Hd.
  - apply Ascii.eqb_eq in Hd. subst d. rewrite Hplus, Hspace. reflexivity.
  - reflexivity.
Qed.

Lemma quote_plus_keeps_out (c : ascii) (s : string) :
  always_safe c = false -> mem_ascii c "%0123456789ABCDEF+ " = false ->
  count_char c (quote_plus "" s) = 0%nat.
Proof.
  intros Hsafe Hother.
  assert (Hhex : mem_ascii c "%0123456789ABCDEF" = false).
  { change "%0123456789ABCDEF+ "%string with ("%0123456789ABCDEF" ++ "+ ")%string in Hother.
    rewrite mem_ascii_app in Hother. apply orb_false_iff in Hother. tauto. }
  assert (Hplus : Ascii.eqb c "+" = false /\ Ascii.eqb c " " = false).
  { change "%0123456789ABCDEF+ "%string with ("%0123456789ABCDEF" ++ "+ ")%string in Hother.
    rewrite mem_ascii_app in Hother. apply orb_false_iff in Hother as [_ H].
    simpl in H. rewrite orb_false_r in H. apply orb_false_iff in H. exact H. }
  unfold quote_plus. destruct (mem_ascii " " s).
  - rewrite spaces_to_plus_count by tauto.
    apply quote_keeps_out; auto. simpl. rewrite (proj2 Hplus). reflexivity.
  - apply quote_keeps_out; auto.
Qed.

End Quoting.

Section QueryStructure.
Context {P : Platform}.
Local Open Scope list_scope.

Lemma query_string_cons (c : ascii) (s : string) :
  query_string (String c s) = if Ascii.eqb c "?" then s else query_string s.
Proof. destruct c as [[] [] [] [] [] [] [] []]; reflexivity. Qed.

Lemma count_char_cons (c d : ascii) (s : string) :
  count_char c (String d s) = ((if Ascii.eqb c d then 1 else 0) + count_char c s)%nat.
Proof. reflexivity. Qed.

Lemma query_string_app (a b : string) :
  count_char "?" a = 0%nat -> query_string (a ++ b)%string = query_string b.
Proof.
  induction a as [| c a IH]; intros H; [reflexivity |].
  change (String c a ++ b)%string with (String c (a ++ b)%string).
  rewrite query_string_cons. rewrite count_char_cons in H.
  destruct (Ascii.eqb "?" c) eqn:Hc; [lia |].
  rewrite Ascii.eqb_sym, Hc. apply IH. exact H.
Qed.

Lemma count_char_join (c : ascii) (sep : string) (parts : list string) (n : nat) :
  Forall (fun p => count_char c p = n) parts ->
  count_char c (join sep parts)
  = (List.length parts * n + pred (List.length parts) * count_char c sep)%nat.
Proof.
  induction 1 as [| p rest Hp Hrest IH]; [reflexivity |].
  destruct rest as [| q rest].
  - simpl. lia.
  - change (join sep (p :: q :: rest)) with (p ++ sep ++ join sep (q :: rest))%string.
    rewrite !count_char_app, IH, Hp. simpl List.length. simpl pred. lia.
Qed.

(** In the output of [urlencode] every [=] and every [&] is one that
    [urlencode] wrote: one [=] per parameter, one [&] between two. *)
Lemma urlencode_structure (params : list (string * json)) :
  count_char "=" (urlencode params) = List.length params
  /\ count_char "&" (urlencode params) = pred (List.length params).
Proof.
  unfold urlencode. split.
  - rewrite (count_char_join _ _ _ 1%nat).
    + rewrite length_map. simpl. lia.
    + apply Forall_map, Forall_forall. intros kv _.
      rewrite !count_char_app, !quote_plus_keeps_out by reflexivity. reflexivity.
  - rewrite (count_char_join _ _ _ 0%nat).
    + rewrite length_map. simpl. lia.
    + apply Forall_map, Forall_forall. intros kv _.
      rewrite !count_char_app, !quote_plus_keeps_out by reflexivity. reflexivity.
Qed.

Lemma urlencode_keeps_out (c : ascii) (params : list (string * json)) :
  always_safe c = false -> mem_ascii c "%0123456789ABCDEF+ =&" = false ->
  count_char c (urlencode params) = 0%nat.
Proof.
  intros Hsafe Hother.
  change "%0123456789ABCDEF+ =&"%string with ("%0123456789ABCDEF+ " ++ "=&")%string in Hother.
  rewrite mem_ascii_app in Hother. apply orb_false_iff in Hother as [Hescape Hsep].
  unfold urlencode. rewrite (count_char_join _ _ _ 0%nat).
  - rewrite (mem_ascii_count c "&"); [lia |].
    simpl in *. apply orb_false_iff in Hsep as [_ Hamp]. exact Hamp.
  - apply Forall_map, Forall_forall. intros kv _.
    rewrite !count_char_app, !quote_plus_keeps_out by assumption.
    rewrite (mem_ascii_count c "="); [reflexivity |].
    simpl in *. apply orb_false_iff in Hsep as [Heq _]. rewrite Heq. reflexivity.
Qed.

(** X5. Whatever the nickname, the display name and the token hold, the
    URL of the download has one [?] and no [#]; what follows the [?] is
    the [urlencode] of the fifteen parameters, with fifteen [=] and
    fourteen [&]: no value can end the path early, add a parameter or
    split one. *)
Theorem ofx_url_structure
  (account_type : string) (display_name nickname token : json) (start_date end_date : date) :
  let url :=
    url_of (ofx_request account_type display_name nickname token start_date end_date) in
  query_string url
  = urlencode (ofx_params account_type display_name nickname token start_date end_date)
  /\ count_char "=" (query_string url) = 15%nat
  /\ count_char "&" (query_string url) = 14%nat
  /\ count_char "?" url = 1%nat
  /\ count_char "#" url = 0%nat.
Proof.
  intros url.
  set (params := ofx_params account_type display_name nickname token start_date end_date).
  set (path := quote "/" (py_str nickname ++ ".QFX")%string).
  assert (Hurl : url = ("https://ofx.tangerine.ca/" ++ path ++ "?" ++ urlencode params)%string)
    by reflexivity.
  assert (Hpath : forall c, always_safe c = false -> mem_ascii c "/" = false ->
                    mem_ascii c "%0123456789ABCDEF" = false -> count_char c path = 0%nat).
  { intros c H1 H2 H3. apply quote_keeps_out; assumption. }
  assert (Hquery : query_string url = urlencode params).
  { rewrite Hurl, query_string_app by reflexivity.
    rewrite query_string_app by (apply Hpath; reflexivity). reflexivity. }
  destruct (urlencode_structure params) as [Heq Hamp].
  repeat split.
  - exact Hquery.
  - rewrite Hquery, Heq. reflexivity.
  - rewrite Hquery, Hamp. reflexivity.
  - rewrite Hurl, !count_char_app, Hpath, urlencode_keeps_out by reflexivity. reflexivity.
  - rewrite Hurl, !count_char_app, Hpath, urlencode_keeps_out by reflexivity. reflexivity.
Qed.

(** X6. [get_account] puts the account id into the path as it is, with no
    quoting: the query of its GET is [billing-cycle-ranges=true] as long
    as the id holds no [?]. *)
Theorem account_request_query (number : json) (w : world) :
  count_char "?" (py_str number) = 0%nat ->
  exists url,
    requests (events_of (get_account number) w) = [Get url []]
    /\ url = ("https://secure.tangerine.ca/web/rest/v1/accounts/" ++ py_str number
                ++ "?billing-cycle-ranges=true")%string
    /\ query_string url = "billing-cycle-ranges=true"%string.
Proof.
  intros Hplain. eexists. split; [| split].
  - unfold get_account. rewrite api_response_events. apply api_get_requests.
  - reflexivity.
  - unfold rest_url.
    rewrite (query_string_app "https://secure.tangerine.ca/web/rest") by reflexivity.
    rewrite (query_string_app "/v1/accounts/") by reflexivity.
    rewrite (query_string_app (py_str number)) by exact Hplain.
    reflexivity.
Qed.

End QueryStructure.

(** X2 at work: [me] on an answer that is a list, and on a dict with no
    status. *)
Lemma api_response_malformed_witness :
  @api_response good_bank "customer" true (ret (JList [])) (@fresh good_bank [])
  = (Raise TypeError, @fresh good_bank [])
  /\ @api_response good_bank "customer" true (ret (JDict [ ("customer", JNone) ]))
       (@fresh good_bank [])
     = (Raise (KeyError "response_status"), @fresh good_bank []).
Proof.
  split.
  - apply (proj1 (@api_response_malformed good_bank "customer" (ret (JList []))
                    (@fresh good_bank []) (@fresh good_bank []) (JList []) eq_refl)).
    discriminate.
  - apply (proj1 (proj2 (@api_response_malformed good_bank "customer"
                           (ret (JDict [ ("customer", JNone) ]))
                           (@fresh good_bank []) (@fresh good_bank [])
                           (JDict [ ("customer", JNone) ]) eq_refl))
             [ ("customer", JNone) ] eq_refl eq_refl).
Defined.

(** X3 at work: the token of the bank in good order, whose envelope has
    no status at all. *)
Lemma token_status_is_not_checked_witness :
  fst (@_get_transaction_download_token good_bank (@fresh good_bank [])) = Ok (JStr "d0wn").
Proof.
  exact (f_equal fst
           (@token_status_is_not_checked good_bank (@fresh good_bank [])
              (snd (@_api_get good_bank "/v1/customers/my/security/transaction-download-token"
                      (@fresh good_bank [])))
              (JDict [ ("token", JStr "d0wn") ]) (JStr "d0wn") eq_refl eq_refl)).
Defined.

(** X4 at work: the accounts of a bank that answers 404 with an error
    envelope. *)
Lemma read_transport_error_first_witness :
  fst (@list_accounts good_bank (@fresh good_bank [])) = Raise (HTTPError 404).
Proof.
  assert (H : 400 <= 404 < 600) by lia.
  exact (f_equal fst
           (proj1 (@read_transport_error_first good_bank "accounts" true "/pfm/v1/accounts"
                     (@fresh good_bank []) [] [])
              (json_response 404
                 (JDict [ ("response_status", JDict [ ("status_code", JStr "NOT_FOUND") ]) ]))
              eq_refl H)).
Defined.

(** X6 at work: the account X. *)
Lemma account_request_query_witness :
  exists url,
    requests (@events_of good_bank _ (get_account (JStr "X")) (@fresh good_bank []))
    = [Get url []]
    /\ url = "https://secure.tangerine.ca/web/rest/v1/accounts/X?billing-cycle-ranges=true"
    /\ query_string url = "billing-cycle-ranges=true".
Proof.
  exact (@account_request_query good_bank (JStr "X") (@fresh good_bank []) eq_refl).
Defined.

(** ** More on transactions *)

Lemma digits_need_no_quoting :
  forallb (fun n =>
             let y := zfill 4 (str_int (Z.of_nat n)) in
             let d := zfill 2 (str_int (Z.of_nat n)) in
             String.eqb (quote "" y) y && negb (mem_ascii " " y)
             && String.eqb (quote "" d) d && negb (mem_ascii " " d))
          (seq 0 (Z.to_nat 10000))
  = true.
Proof. vm_compute. reflexivity. Qed.

Lemma digits_quote (n : Z) :
  0 <= n <= 9999 ->
  (quote "" (zfill 4 (str_int n)) = zfill 4 (str_int n)
   /\ mem_ascii " " (zfill 4 (str_int n)) = false)
  /\ (quote "" (zfill 2 (str_int n)) = zfill 2 (str_int n)
      /\ mem_ascii " " (zfill 2 (str_int n)) = false).
Proof.
  intros Hn.
  pose proof (proj1 (forallb_forall _ _) digits_need_no_quoting (Z.to_nat n)) as H.
  cbv beta zeta in H. rewrite Z2Nat.id in H by lia.
  assert (Hin : In (Z.to_nat n) (seq 0 (Z.to_nat 10000))) by (apply in_seq; lia).
  specialize (H Hin).
  rewrite !andb_true_iff, !negb_true_iff, !String.eqb_eq in H. tauto.
Qed.

Section TransactionsInGeneral.
Context {P : Platform}.
Local Open Scope list_scope.

Lemma str_items_of_strings (ids : list string) : str_items (map JStr ids) = Ok ids.
Proof. induction ids as [| s ids IH]; simpl; [| rewrite IH]; reflexivity. Qed.

Lemma str_items_of_other (ids : list json) :
  forallb is_str ids = false -> str_items ids = Raise TypeError.
Proof.
  induction ids as [| v ids IH]; simpl; [discriminate |].
  destruct v; simpl; try reflexivity.
  intros H. rewrite (IH H). reflexivity.
Qed.

(** The period of a query, as [strftime] prints it and as [urlencode]
    sends it. *)
Lemma period_quoted (d : date) :
  calendar_date d ->
  quote_plus "" (strftime d "%Y-%m-%dT00:00:00.000Z")
  = (iso_date d ++ "T00%3A00%3A00.000Z")%string.
Proof.
  intros (Hy & Hm & Hd).
  destruct (digits_quote (year d)) as [[Qy Sy] _]; [lia |].
  destruct (digits_quote (month d)) as [_ [Qm Sm]]; [lia |].
  destruct (digits_quote (day d)) as [_ [Qd Sd]]; [lia |].
  assert (E : strftime d "%Y-%m-%dT00:00:00.000Z"
              = (zfill 4 (str_int (year d)) ++ "-" ++ zfill 2 (str_int (month d)) ++ "-"
                   ++ zfill 2 (str_int (day d)) ++ "T00:00:00.000Z")%string).
  { cbn [strftime]. rewrite (four_digit_year (year d)) at 1 by lia. reflexivity. }
  rewrite E. unfold quote_plus, iso_date.
  rewrite !mem_ascii_app, Sy, Sm, Sd. simpl orb. cbv iota.
  rewrite !quote_app, Qy, Qm, Qd, !string_app_assoc. reflexivity.
Qed.

(** X7. For account ids that are strings and two dates of the calendar,
    [list_transactions] makes one GET: its query carries the ids joined
    by commas and quoted, [hideAuthorizedStatus=True], both periods as
    [YYYY-MM-DDT00%3A00%3A00.000Z] and [skip=0], in that order. *)
Theorem list_transactions_query
  (account_ids : list string) (period_from period_to : date) (w : world) :
  calendar_date period_from -> calendar_date period_to ->
  requests (events_of (list_transactions (map JStr account_ids) period_from period_to) w)
  = [ Get ("https://secure.tangerine.ca/web/rest/pfm/v1/transactions?accountIdentifiers="
             ++ quote_plus "" (join "," account_ids)
             ++ "&hideAuthorizedStatus=True&periodFrom="
             ++ iso_date period_from ++ "T00%3A00%3A00.000Z&periodTo="
             ++ iso_date period_to ++ "T00%3A00%3A00.000Z&skip=0")%string
          [] ].
Proof.
  intros Hfrom Hto.
  unfold list_transactions. rewrite api_response_events.
  unfold list_transactions_fn, join_items. rewrite str_items_of_strings.
  match goal with
  | |- requests (events_of (bind (lift (Ok ?ids)) ?k) w) = _ =>
      rewrite (events_of_ext (bind (lift (Ok ids)) k) (k ids) w) by reflexivity
  end.
  rewrite api_get_requests. do 2 f_equal.
  unfold rest_url, urlencode. cbn [map join fst snd py_str].
  rewrite !period_quoted by assumption.
  generalize (quote_plus "" (join "," account_ids)) (iso_date period_from)
    (iso_date period_to).
  intros ids from to. rewrite !string_app_assoc. reflexivity.
Qed.

(** X8. An account id that is no string stops [list_transactions] in the
    [join]: [TypeError], and nothing has been sent. *)
Theorem list_transactions_rejects_other_ids
  (account_ids : list json) (period_from period_to : date) (w : world) :
  forallb is_str account_ids = false ->
  list_transactions account_ids period_from period_to w = (Raise TypeError, w).
Proof.
  intros H.
  unfold list_transactions, api_response, list_transactions_fn, join_items, bind, lift.
  rewrite (str_items_of_other _ H). reflexivity.
Qed.

End TransactionsInGeneral.

(** ** More on the statement download *)

Section DownloadEdges.
Context {P : Platform}.
Local Open Scope list_scope.

(** X9. Whatever the account and the answers of the bank, [download_ofx]
    writes no file, or it writes one: asked to save, with the names found
    for this account and the token fetched in this run, the text of the
    answer to its download request, an answer with no error status, under
    the nickname and the two dates as [strftime] prints them.  A failed
    lookup, token or download leaves no file behind. *)
Theorem download_ofx_writes
  (account : json) (start_date end_date : date) (save : bool) (w : world) :
  file_writes (events_of (download_ofx account start_date end_date save) w) = []
  \/ exists account_type display_name nickname w1 token w2 response w3,
       save = true
       /\ download_ofx_names account w = (Ok (account_type, display_name, nickname), w1)
       /\ _get_transaction_download_token w1 = (Ok token, w2)
       /\ session_call
            (ofx_request account_type display_name nickname token start_date end_date) w2
          = (Ok response, w3)
       /\ is_http_error response = false
       /\ file_writes (events_of (download_ofx account start_date end_date save) w)
          = [ ((py_str nickname ++ "_" ++ strftime start_date "%Y%m%d" ++ "-"
                  ++ strftime end_date "%Y%m%d" ++ ".QFX")%string,
               text response) ].
Proof.
  unfold download_ofx.
  rewrite (events_of_bind any_event);
    [| apply emits_download_ofx_names; reflexivity
     | intros [[ty dn] nn]; apply emits_download_ofx_fetch ].
  rewrite file_writes_app.
  rewrite (file_writes_none (events_of (download_ofx_names account) w))
    by (apply emits_events, emits_download_ofx_names; reflexivity).
  destruct (download_ofx_names account w) as [[[[ty dn] nn] | e] w1] eqn:Hnames;
    [| left; reflexivity].
  unfold download_ofx_fetch.
  rewrite (events_of_bind any_event); [| apply emits_token; reflexivity | intros; emits].
  rewrite file_writes_app.
  rewrite (file_writes_none (events_of _get_transaction_download_token w1))
    by (apply emits_events, emits_token; reflexivity).
  destruct (_get_transaction_download_token w1) as [[token | e] w2] eqn:Htoken;
    [| left; reflexivity].
  rewrite (events_of_bind any_event); [| emits | intros; emits].
  rewrite file_writes_app, session_call_events.
  destruct (session_call (ofx_request ty dn nn token start_date end_date) w2)
    as [[response | e] w3] eqn:Hget; [| left; reflexivity].
  simpl.
  unfold events_of, raise_for_status, open_write, logger_info, emit, bind, raise, ret.
  destruct (is_http_error response) eqn:Hstatus; simpl.
  - left. rewrite <- (app_nil_r (trace w3)) at 2. rewrite skipn_app_length. reflexivity.
  - destruct save; simpl.
    + right. exists ty, dn, nn, w1, token, w2, response, w3. repeat split; auto.
      destruct (write_file _ _ (ext w3)) as [[[] | e] files]; simpl;
        rewrite <- ?app_assoc, skipn_app_length; reflexivity.
    + left. rewrite <- (app_nil_r (trace w3)) at 2. rewrite skipn_app_length. reflexivity.
Qed.

(** X10. Once the names are found, [download_ofx] stops at the first
    step that fails, in the world that step left: a token that cannot be
    fetched, a download request that raises, a download answered with a
    4xx or 5xx status.  In none of these is a file written or a line
    logged, asked to save or not. *)
Theorem download_ofx_failures
  (account : json) (start_date end_date : date) (save : bool) (w w1 : world)
  (account_type : string) (display_name nickname : json) :
  download_ofx_names account w = (Ok (account_type, display_name, nickname), w1) ->
  (forall e w2,
      _get_transaction_download_token w1 = (Raise e, w2) ->
      download_ofx account start_date end_date save w = (Raise e, w2))
  /\ (forall token w2 e w3,
        _get_transaction_download_token w1 = (Ok token, w2) ->
        session_call
          (ofx_request account_type display_name nickname token start_date end_date) w2
        = (Raise e, w3) ->
        download_ofx account start_date end_date save w = (Raise e, w3))
  /\ (forall token w2 response w3,
        _get_transaction_download_token w1 = (Ok token, w2) ->
        session_call
          (ofx_request account_type display_name nickname token start_date end_date) w2
        = (Ok response, w3) ->
        400 <= status_code response < 600 ->
        download_ofx account start_date end_date save w
        = (Raise (HTTPError (status_code response)), w3)).
Proof.
  intros Hnames. repeat split.
  - intros e w2 Htoken.
    unfold download_ofx, bind at 1. rewrite Hnames.
    unfold download_ofx_fetch, bind at 1. rewrite Htoken. reflexivity.
  - intros token w2 e w3 Htoken Hget.
    unfold download_ofx, bind at 1. rewrite Hnames.
    unfold download_ofx_fetch, bind at 1. rewrite Htoken.
    unfold bind at 1. rewrite Hget. reflexivity.
  - intros token w2 response w3 Htoken Hget Hstatus.
    apply is_http_error_range in Hstatus.
    unfold download_ofx, bind at 1. rewrite Hnames.
    unfold download_ofx_fetch, bind at 1. rewrite Htoken.
    unfold bind at 1. rewrite Hget.
    unfold bind at 1, raise_for_status. rewrite Hstatus. reflexivity.
Qed.

(** X11. An account record that lacks a field the download needs stops
    it in the subscript, with the world as it was: no [type], or, for
    CHEQUING and SAVINGS, no [display_name] or no [nickname], or, for
    CREDIT_CARD, no [number]; what is no dict at all raises [TypeError]
    in the same way. *)
Theorem download_ofx_incomplete_account
  (account : json) (start_date end_date : date) (save : bool) (w : world) (e : exn) :
  getitem account "type" = Raise e
  \/ ((getitem account "type" = Ok (JStr "CHEQUING")
       \/ getitem account "type" = Ok (JStr "SAVINGS"))
      /\ (getitem account "display_name" = Raise e
          \/ (exists display_name, getitem account "display_name" = Ok display_name)
             /\ getitem account "nickname" = Raise e))
  \/ (getitem account "type" = Ok (JStr "CREDIT_CARD")
      /\ getitem account "number" = Raise e) ->
  download_ofx account start_date end_date save w = (Raise e, w).
Proof.
  intros [Htype | [[Htype Hfield] | [Htype Hnumber]]];
    unfold download_ofx, download_ofx_names, bind, lift, ret.
  - rewrite Htype. reflexivity.
  - destruct Hfield as [Hdisplay | [[display_name Hdisplay] Hnick]];
      destruct Htype as [Htype | Htype]; rewrite Htype; simpl;
      rewrite Hdisplay; try rewrite Hnick; reflexivity.
  - rewrite Htype. simpl. rewrite Hnumber. reflexivity.
Qed.

(** X12. For a credit card, a lookup that fails ends the download with
    the exception of the lookup: its GET is the only request made, no
    token is asked for and nothing is downloaded. *)
Theorem download_ofx_lookup_failure
  (account : json) (start_date end_date : date) (save : bool) (w w1 : world)
  (number : json) (e : exn) :
  getitem account "type" = Ok (JStr "CREDIT_CARD") ->
  getitem account "number" = Ok number ->
  get_account number w = (Raise e, w1) ->
  download_ofx account start_date end_date save w = (Raise e, w1)
  /\ requests (events_of (download_ofx account start_date end_date save) w)
     = [account_request number].
Proof.
  intros Htype Hnumber Hlookup.
  assert (Hrun : download_ofx account start_date end_date save w = (Raise e, w1)).
  { unfold download_ofx, download_ofx_names, bind, lift.
    rewrite Htype. simpl. rewrite Hnumber, Hlookup. reflexivity. }
  split; [exact Hrun |].
  rewrite (events_of_ext _ (get_account number) w) by (rewrite Hrun, Hlookup; reflexivity).
  unfold get_account. rewrite api_response_events. apply api_get_requests.
Qed.

End DownloadEdges.

(** ** More on reads, the login and the write operations *)

Section OperationEdges.
Context {P : Platform}.
Local Open Scope list_scope.

(** X13. Each read of the client is one request: a GET with no header of
    its own on the path of the operation, whatever the bank answers; no
    read asks twice. *)
Theorem reads_are_one_get (w : world) :
  requests (events_of me w) = [Get (rest_url "/v1/customers/my") []]
  /\ requests (events_of list_accounts w) = [Get (rest_url "/pfm/v1/accounts") []]
  /\ requests (events_of list_pending_transactions w)
     = [Get (rest_url "/v1/customers/my/pending-transactions?include-mf-transactions=true") []]
  /\ requests (events_of list_email_recipients w)
     = [Get (rest_url "/v1/customers/my/emt-recipients") []]
  /\ requests (events_of list_move_money_accounts w)
     = [Get (rest_url "/v1/customers/my/accounts?actionCode=MOVE_MONEY") []]
  /\ requests (events_of _get_transaction_download_token w)
     = [Get (rest_url "/v1/customers/my/security/transaction-download-token") []].
Proof.
  unfold me, list_accounts, list_pending_transactions, list_email_recipients,
    list_move_money_accounts, _get_transaction_download_token.
  rewrite !api_response_events.
  repeat split; apply api_get_requests.
Qed.


Lemma find_no_duplicates_absent (name : string) (jar : cookiejar) (found : option string) :
  (forall v, ~ In (name, v) jar) -> _find_no_duplicates name jar found = Ok found.
Proof.
  induction jar as [| [n v] jar IH]; intros Habsent; simpl; [reflexivity |].
  destruct (String.eqb n name) eqn:Hn.
  - apply String.eqb_eq in Hn. subst n. exfalso. apply (Habsent v). left. reflexivity.
  - apply IH. intros v' Hin. apply (Habsent v'). right. exact Hin.
Qed.

Lemma find_no_duplicates_second (name v : string) (jar : cookiejar) (first : string) :
  In (name, v) jar -> _find_no_duplicates name jar (Some first) = Raise CookieConflictError.
Proof.
  induction jar as [| [n v'] jar IH]; intros Hin; simpl; [contradiction |].
  destruct (String.eqb n name) eqn:Hn; [reflexivity |].
  destruct Hin as [[= -> ->] | Hin]; [| auto].
  rewrite String.eqb_refl in Hn. discriminate.
Qed.

Lemma find_no_duplicates_twice (name v1 v2 : string) (before between after : cookiejar) :
  _find_no_duplicates name (before ++ (name, v1) :: between ++ (name, v2) :: after) None
  = Raise CookieConflictError.
Proof.
  induction before as [| [n v] before IH]; simpl.
  - rewrite String.eqb_refl. apply (find_no_duplicates_second name v2).
    apply in_or_app. right. left. reflexivity.
  - destruct (String.eqb n name); [| exact IH].
    apply (find_no_duplicates_second name v2).
    apply in_or_app. right. right. apply in_or_app. right. left. reflexivity.
Qed.

Lemma cookies_get_same_jar (name : string) (w w' : world) :
  cookies w = cookies w' -> fst (cookies_get name w) = fst (cookies_get name w').
Proof.
  intros H. unfold cookies_get. rewrite H.
  destruct (_find_no_duplicates name (cookies w') None) as [[[| c v] |] | e]; reflexivity.
Qed.

(** X15. [_api_post] does not ask that a token be there: with no
    TRANSACTION_TOKEN cookie in the store the POST is made all the same,
    and the value it passes for the [x-transaction-token] header is
    [None]. *)
Theorem api_post_without_token (path : string) (data : json) (w : world) :
  (forall v, ~ In ("TRANSACTION_TOKEN"%string, v) (cookies w)) ->
  requests (events_of (_api_post path data) w)
  = [Post (rest_url path) (post_headers JNone) data]
  /\ dict_get "x-transaction-token" (post_headers JNone) = Some JNone.
Proof.
  intros Habsent. split; [| reflexivity].
  rewrite api_post_requests. unfold cookies_get.
  rewrite (find_no_duplicates_absent _ _ None Habsent). reflexivity.
Qed.

(** X16. With two cookies named TRANSACTION_TOKEN in the store, the
    lookup of the token raises [CookieConflictError] and [_api_post]
    sends nothing. *)
Theorem api_post_cookie_conflict
  (path : string) (data : json) (w : world)
  (v1 v2 : string) (before between after : cookiejar) :
  cookies w = before ++ ("TRANSACTION_TOKEN"%string, v1) :: between
                ++ ("TRANSACTION_TOKEN"%string, v2) :: after ->
  _api_post path data w = (Raise CookieConflictError, w).
Proof.
  intros Hjar. unfold _api_post, bind, cookies_get.
  rewrite Hjar, find_no_duplicates_twice. reflexivity.
Qed.

(** X17. [move_money] prints the body of the transfer, then posts that
    same body, once, to the transactions of the account:
    [validate_only] is [False] in it and the five fields of [transfers]
    are the arguments; with a conflict of cookies nothing is posted. *)
Theorem move_money_posts_what_it_prints
  (account_id from_account to_account amount currency when : json) (w : world) :
  let data := transfer_data from_account to_account amount currency when in
  (exists rest,
      events_of (move_money account_id from_account to_account amount currency when) w
      = EvPrint data :: rest)
  /\ requests (events_of (move_money account_id from_account to_account amount currency when) w)
     = match fst (cookies_get "TRANSACTION_TOKEN" w) with
       | Ok token =>
           [ Post (rest_url ("/v1/accounts/" ++ py_str account_id
                               ++ "/transactions/movemoney")%string)
               (post_headers token) data ]
       | Raise _ => []
       end.
Proof.
  intros data.
  assert (Hevents :
    events_of (move_money account_id from_account to_account amount currency when) w
    = EvPrint data
        :: match print data w with
           | (Ok _, w1) =>
               events_of
                 (response <- _api_post ("/v1/accounts/" ++ py_str account_id
                                           ++ "/transactions/movemoney")%string data ;;
                  decoded <- Response_json response ;;
                  print decoded ;;
                  ret JNone) w1
           | (Raise _, _) => []
           end).
  { unfold move_money. rewrite api_response_events. unfold move_money_fn. fold data.
    rewrite (events_of_bind any_event); [| emits | intros; unfold _api_post; emits].
    rewrite (events_of_eq (print _) w [EvPrint data]) by reflexivity.
    reflexivity. }
  split; [eexists; exact Hevents |].
  rewrite Hevents. simpl.
  rewrite (events_of_bind any_event); [| unfold _api_post; emits | intros; emits].
  rewrite requests_app, api_post_requests.
  match goal with
  | |- _ ++ requests ?tail = _ => assert (Htail : requests tail = [])
  end.
  { destruct (_api_post _ data _) as [[response | e] w1]; [| reflexivity].
    apply requests_none, emits_events. emits. }
  rewrite Htail, app_nil_r.
  rewrite (cookies_get_same_jar "TRANSACTION_TOKEN" _ w) by reflexivity. reflexivity.
Qed.

(** X18. In a write the transport comes first as well: with the token in
    the store and the POST answered with a 4xx or 5xx status,
    [move_money] and [email_money] raise [HTTPError] with that status;
    the POST is the last event: the answer is neither logged, decoded
    nor printed. *)
Theorem write_operations_transport_error
  (account_id from_account to_account amount currency when : json)
  (recipient_sequence_number : json) (scheduled_date : date) (emt_type : json)
  (w : world) (token : string) (jar : cookiejar) (files : outside) :
  _find_no_duplicates "TRANSACTION_TOKEN" (cookies w) None = Ok (Some token) ->
  token <> ""%string ->
  let transfer :=
    Post (rest_url ("/v1/accounts/" ++ py_str account_id ++ "/transactions/movemoney")%string)
      (post_headers (JStr token))
      (transfer_data from_account to_account amount currency when) in
  let emt :=
    Post (rest_url ("/v1/accounts/" ++ py_str account_id ++ "/transactions/emts")%string)
      (post_headers (JStr token))
      (email_money_data recipient_sequence_number amount when scheduled_date emt_type) in
  (forall response,
      send transfer (cookies w) (ext w) = (Ok response, jar, files) ->
      400 <= status_code response < 600 ->
      move_money account_id from_account to_account amount currency when w
      = (Raise (HTTPError (status_code response)),
         {| cookies := jar; ext := files;
            trace := trace w
                       ++ [ EvPrint (transfer_data from_account to_account amount currency when);
                            EvRequest transfer ] |}))
  /\ (forall response,
        send emt (cookies w) (ext w) = (Ok response, jar, files) ->
        400 <= status_code response < 600 ->
        email_money account_id recipient_sequence_number amount when scheduled_date emt_type w
        = (Raise (HTTPError (status_code response)),
           {| cookies := jar; ext := files; trace := trace w ++ [EvRequest emt] |})).
Proof.
  intros Hjar Hne transfer emt. split.
  - intros response Hsend Hstatus. apply is_http_error_range in Hstatus.
    unfold move_money, api_response, bind at 1.
    unfold move_money_fn, bind at 1, print, emit.
    unfold bind at 1.
    rewrite (api_post_run _ _ (JStr token)).
    + cbn [cookies ext trace].
      match goal with
      | |- context [send ?rq (cookies w) (ext w)] => change rq with transfer
      end.
      rewrite Hsend, Hstatus. cbn [cookies ext trace].
      rewrite <- app_assoc. reflexivity.
    + apply cookies_get_found; assumption.
  - intros response Hsend Hstatus. apply is_http_error_range in Hstatus.
    unfold email_money, api_response, bind at 1.
    unfold email_money_fn, bind at 1.
    rewrite (api_post_run _ _ (JStr token)) by (apply cookies_get_found; assumption).
    match goal with
    | |- context [send ?rq (cookies w) (ext w)] => change rq with emt
    end.
    rewrite Hsend, Hstatus. reflexivity.
Qed.

End OperationEdges.

(** ** The further theorems at work *)

(** X7 at work: two accounts over January. *)
Lemma list_transactions_query_witness :
  requests (@events_of good_bank _ (list_transactions [JStr "acc1"; JStr "acc2"] jan_1 jan_31)
              (@fresh good_bank []))
  = [ Get ("https://secure.tangerine.ca/web/rest/pfm/v1/transactions"
             ++ "?accountIdentifiers=acc1%2Cacc2&hideAuthorizedStatus=True"
             ++ "&periodFrom=2023-01-01T00%3A00%3A00.000Z"
             ++ "&periodTo=2023-01-31T00%3A00%3A00.000Z&skip=0")
          [] ].
Proof.
  assert (H1 : calendar_date jan_1) by (unfold calendar_date; simpl; lia).
  assert (H31 : calendar_date jan_31) by (unfold calendar_date; simpl; lia).
  exact (@list_transactions_query good_bank ["acc1"; "acc2"] jan_1 jan_31
           (@fresh good_bank []) H1 H31).
Defined.

(** X8 at work: an account given by its number, not its text. *)
Lemma list_transactions_rejects_other_ids_witness :
  @list_transactions good_bank [JStr "acc1"; JInt 3141] jan_1 jan_31 (@fresh good_bank [])
  = (Raise TypeError, @fresh good_bank []).
Proof.
  exact (@list_transactions_rejects_other_ids good_bank [JStr "acc1"; JInt 3141] jan_1 jan_31
           (@fresh good_bank []) eq_refl).
Defined.

(** X10 at work: the bank refuses the token; no file is left. *)
Lemma download_ofx_failures_witness :
  @download_ofx forbidding_bank a_chequing_account jan_1 jan_31 true (@fresh forbidding_bank [])
  = (Raise (HTTPError 403),
     snd (@_get_transaction_download_token forbidding_bank (@fresh forbidding_bank []))).
Proof.
  exact (proj1 (@download_ofx_failures forbidding_bank a_chequing_account jan_1 jan_31 true
                  (@fresh forbidding_bank []) (@fresh forbidding_bank [])
                  "SAVINGS" (JStr "3141") (JStr "Daily") eq_refl)
           (HTTPError 403)
           (snd (@_get_transaction_download_token forbidding_bank (@fresh forbidding_bank [])))
           eq_refl).
Defined.

(** X11 at work: a savings account with no nickname. *)
Lemma download_ofx_incomplete_account_witness :
  @download_ofx good_bank
    (JDict [ ("type", JStr "SAVINGS"); ("display_name", JStr "2718") ])
    jan_1 jan_31 true (@fresh good_bank [])
  = (Raise (KeyError "nickname"), @fresh good_bank []).
Proof.
  apply (@download_ofx_incomplete_account good_bank).
  right. left. split.
  - right. reflexivity.
  - right. split; [exists (JStr "2718") |]; reflexivity.
Defined.

(** X12 at work: the bank refuses the lookup of the card. *)
Lemma download_ofx_lookup_failure_witness :
  requests (@events_of forbidding_bank _ (download_ofx a_credit_card jan_1 jan_31 true)
              (@fresh forbidding_bank []))
  = [ Get "https://secure.tangerine.ca/web/rest/v1/accounts/X?billing-cycle-ranges=true" [] ].
Proof.
  exact (proj2 (@download_ofx_lookup_failure forbidding_bank a_credit_card jan_1 jan_31 true
                  (@fresh forbidding_bank [])
                  (snd (@get_account forbidding_bank (JStr "X") (@fresh forbidding_bank [])))
                  (JStr "X") (HTTPError 403) eq_refl eq_refl eq_refl)).
Defined.


(** X15 at work: a POST before any login. *)
Lemma api_post_without_token_witness :
  requests (@events_of good_bank _
              (_api_post "/v1/accounts/3141/transactions/movemoney" (JDict []))
              (@fresh good_bank []))
  = [ Post "https://secure.tangerine.ca/web/rest/v1/accounts/3141/transactions/movemoney"
        (post_headers JNone) (JDict []) ].
Proof.
  refine (proj1 (@api_post_without_token good_bank
                   "/v1/accounts/3141/transactions/movemoney" (JDict [])
                   (@fresh good_bank []) _)).
  intros v [].
Defined.

(** X16 at work: the token of two sites in one store. *)
Lemma api_post_cookie_conflict_witness :
  fst (@_api_post good_bank "/v1/accounts/3141/transactions/movemoney" (JDict [])
         (@Build_world good_bank
            [ ("TRANSACTION_TOKEN", "t0k3n"); ("TRANSACTION_TOKEN", "0ld") ] [] []))
  = Raise CookieConflictError.
Proof.
  exact (f_equal fst
           (@api_post_cookie_conflict good_bank
              "/v1/accounts/3141/transactions/movemoney" (JDict [])
              (@Build_world good_bank
                 [ ("TRANSACTION_TOKEN", "t0k3n"); ("TRANSACTION_TOKEN", "0ld") ] [] [])
              "t0k3n" "0ld" [] [] [] eq_refl)).
Defined.

(** X18 at work: the bank refuses the transfer with 403. *)
Lemma write_operations_transport_error_witness :
  fst (@a_transfer forbidding_bank (@logged_in forbidding_bank [])) = Raise (HTTPError 403)
  /\ decodes (@events_of forbidding_bank _ a_transfer (@logged_in forbidding_bank [])) = [].
Proof.
  assert (Hne : "t0k3n"%string <> ""%string) by discriminate.
  assert (Hstatus : 400 <= 403 < 600) by lia.
  pose proof
    (proj1 (@write_operations_transport_error forbidding_bank
              (JStr "3141") (JStr "3141") (JStr "2718") (JFloat "25.0") (JStr "CAD") (JStr "NOW")
              (JInt 1) jan_31 (JStr "INTERAC_EMT")
              (@logged_in forbidding_bank []) "t0k3n" [ ("TRANSACTION_TOKEN", "t0k3n") ] []
              eq_refl Hne)
       (json_response 403
          (JDict [ ("response_status", JDict [ ("status_code", JStr "FORBIDDEN") ]) ]))
       eq_refl Hstatus) as Hrun.
  split.
  - exact (f_equal fst Hrun).
  - reflexivity.
Defined.
